(** * Retrieval-and-insight engine of the career navigator

    A shallow embedding of [src/rag_engine.py] (class [RAGEngine]) and of the
    skills helper of [src/career_analytics.py], together with the properties
    of the design document that concern them.

    Conventions of the embedding:
    - a Python [str] is the list of its code points ([list N]);
    - a Python exception is a value of [exn]; a call either returns or raises
      ([result]);
    - the persistent Chroma client, the generation service and the file
      system are outside the repository: the store is an explicit finite map
      that is threaded through the calls, the nearest-neighbour search, the
      completion endpoint and [read_csv] are parameters of the development;
    - a distance reported by the index is a rational number ([Qc]). *)

From Stdlib Require Import ZArith NArith List String Ascii QArith Qcanon Lqa.
From Stdlib Require Import DecimalString DecimalNat.
From stdpp Require Import base option list strings gmap numbers.
From stdpp Require Import sorting.

Local Open Scope N_scope.
Local Open Scope list_scope.

(** ** Python strings *)

Abbreviation pystr := (list N).

(** A literal of the source, as code points. *)
Definition lit (s : string) : pystr :=
  (fun a => N_of_ascii a) <$> list_ascii_of_string s.

Definition nl : pystr := [10].

(** [str.isspace] of one code point (CPython's [_PyUnicode_IsWhitespace]). *)
Definition isspace (c : N) : bool :=
  ((9 <=? c) && (c <=? 13)) || ((28 <=? c) && (c <=? 32))
  || (c =? 133) || (c =? 160) || (c =? 5760)
  || ((8192 <=? c) && (c <=? 8202))
  || (c =? 8232) || (c =? 8233) || (c =? 8239) || (c =? 8287) || (c =? 12288).

Fixpoint lstrip (s : pystr) : pystr :=
  match s with
  | [] => []
  | c :: s' => if isspace c then lstrip s' else s
  end.

Definition rstrip (s : pystr) : pystr := rev (lstrip (rev s)).

(** [s.strip()] *)
Definition strip (s : pystr) : pystr := rstrip (lstrip s).

(** [sep.join(parts)] *)
Fixpoint join (sep : pystr) (parts : list pystr) : pystr :=
  match parts with
  | [] => []
  | [p] => p
  | p :: ps => p ++ sep ++ join sep ps
  end.

(** [l[:n]] for a literal [n >= 0]. *)
Definition slice_to {A} (n : nat) (l : list A) : list A := take n l.

(** [l[i:]] for any integer [i]: a negative start counts from the end and is
    clamped at the beginning of the list. *)
Definition slice_from {A} (i : Z) (l : list A) : list A :=
  let len := Z.of_nat (length l) in
  let start := if (i <? 0)%Z then Z.max 0 (len + i) else Z.min i len in
  drop (Z.to_nat start) l.

(** Truth value of a string: non-empty. *)
Definition truthy (s : pystr) : bool :=
  match s with [] => false | _ => true end.

(** [s or default] *)
Definition or_else (s : option pystr) (default : pystr) : pystr :=
  match s with
  | Some (c :: r) => c :: r
  | _ => default
  end.

(** Decimal rendering of a row index, as in [f"job_{idx}"]. *)
Definition str_of_nat (n : nat) : pystr :=
  lit (NilEmpty.string_of_uint (Nat.to_uint n)).

(** ** Table cells

    A cell is only ever read through [pd.isna], [str()] or an f-string, so a
    present value is represented by its [str()] rendering. *)
Inductive Cell :=
| CNaN
| CVal (text : pystr).

Definition isna (c : Cell) : bool :=
  match c with CNaN => true | CVal _ => false end.

Definition str_of_cell (c : Cell) : pystr :=
  match c with CNaN => lit "nan" | CVal t => t end.

(** ** Skills helper ([CareerAnalytics._extract_skills]) *)

Module Skills.

(** The character class [[|,;]] of the pattern. *)
Definition is_sep (c : N) : bool := (c =? 124) || (c =? 44) || (c =? 59).

Definition push_char (c : N) (ts : list pystr) : list pystr :=
  match ts with
  | [] => [[c]]
  | t :: ts' => (c :: t) :: ts'
  end.

(** [re.split(r'[|,;]+', s)]: every maximal run of separators is one cut.
    [in_run] tells that the previous character was a separator. The head of
    the result is the piece that starts at the current position. *)
Fixpoint re_split_runs (in_run : bool) (s : pystr) : list pystr :=
  match s with
  | [] => [[]]
  | c :: s' =>
      if is_sep c then
        if in_run then re_split_runs true s' else [] :: re_split_runs true s'
      else push_char c (re_split_runs false s')
  end.

Definition re_split (s : pystr) : list pystr := re_split_runs false s.

Section WithLower.
(** [str.lower] of the Python runtime (the Unicode case tables). *)
Variable lower : pystr -> pystr.

(** [[skill.strip().lower() for skill in skills if skill.strip()]] *)
Definition _extract_skills (skills_str : Cell) : list pystr :=
  if isna skills_str then []
  else
    let skills := re_split (str_of_cell skills_str) in
    (fun skill => lower (strip skill))
      <$> List.filter (fun skill => truthy (strip skill)) skills.

(** The helper as the design document words it: cut at every single
    separator, trim each token, drop the empty ones, lower-case. *)
Fixpoint split_each (s : pystr) : list pystr :=
  match s with
  | [] => [[]]
  | c :: s' =>
      if is_sep c then [] :: split_each s'
      else push_char c (split_each s')
  end.

Definition extract_skills_spec (s : pystr) : list pystr :=
  lower <$> List.filter truthy (strip <$> split_each s).
End WithLower.

(** Lower-casing restricted to the ASCII letters, for concrete runs. *)
Definition lower_ascii (s : pystr) : pystr :=
  (fun c => if (65 <=? c) && (c <=? 90) then c + 32 else c) <$> s.

End Skills.

(** ** Exceptions and results *)

Inductive exn :=
| ValueError (msg : pystr)
| AttributeError (msg : pystr)
| IndexError
| UnicodeDecodeError
| FileNotFoundError
| ParserError
| EmptyDataError
| NotFoundError (name : pystr)
| UniqueConstraintError (name : pystr)
| InvalidArgumentError
| ServiceError (detail : pystr).

Inductive result (A : Type) :=
| Ok (a : A)
| Raise (e : exn).
Arguments Ok {A} a.
Arguments Raise {A} e.

Definition is_ok {A} (r : result A) : bool :=
  match r with Ok _ => true | Raise _ => false end.

(** ** Tables ([pandas.DataFrame])

    A frame has its columns in order and its rows in order; the index is the
    default one (row position), which is what [read_csv] and
    [concat(..., ignore_index=True)] produce. *)

Record DataFrame := {
  df_columns : list pystr;
  df_rows : list (gmap pystr Cell)
}.

(** [len(df)] *)
Definition df_len (df : DataFrame) : nat := length (df_rows df).

(** [df[col] = value], the same value in every row. *)
Definition set_column (col : pystr) (value : Cell) (df : DataFrame) : DataFrame :=
  {| df_columns :=
       if bool_decide (col ∈ df_columns df) then df_columns df
       else df_columns df ++ [col];
     df_rows := (fun row => <[col := value]> row) <$> df_rows df |}.

(** Columns of all frames, in order of first appearance ([sort=False]). *)
Fixpoint union_columns (seen : list pystr) (dfs : list DataFrame) : list pystr :=
  match dfs with
  | [] => seen
  | df :: dfs' =>
      union_columns
        (seen ++ List.filter (fun c => negb (bool_decide (c ∈ seen)))
                             (remove_dups (df_columns df)))
        dfs'
  end.

(** A row seen through a larger set of columns: absent cells are missing. *)
Definition reindex (cols : list pystr) (row : gmap pystr Cell) : gmap pystr Cell :=
  row ∪ list_to_map ((fun c => (c, CNaN)) <$> cols).

(** [pd.concat(dataframes, ignore_index=True, sort=False)] *)
Definition pd_concat (dfs : list DataFrame) : DataFrame :=
  let cols := union_columns [] dfs in
  {| df_columns := cols;
     df_rows := dfs ≫= (fun df => reindex cols <$> df_rows df) |}.

(** [row.get(col, default)] on a row of the frame [df]. *)
Definition row_get (row : gmap pystr Cell) (col : pystr) (default : Cell) : Cell :=
  match row !! col with
  | Some v => v
  | None => default
  end.

(** ** Dataset loader ([RAGEngine._load_multiple_files]) *)

Inductive Encoding := Utf8 | Latin1.

Module Loader.
Section WithFiles.
(** [pd.read_csv(path, encoding=...)] on the files present. *)
Variable read_csv : pystr -> Encoding -> result DataFrame.

Definition endswith (s suffix : pystr) : bool :=
  bool_decide (suffix `suffix_of` s).

(** The inner [try]: utf-8 first, latin-1 when that raises
    [UnicodeDecodeError]; any other exception leaves the inner [try]. *)
Definition read_with_fallback (file_path : pystr) : result DataFrame :=
  match read_csv file_path Utf8 with
  | Raise UnicodeDecodeError => read_csv file_path Latin1
  | r => r
  end.

(** One iteration of the loop: the frame appended to [dataframes], if any.
    A path that does not end in [.csv] is passed over; an exception is
    printed and swallowed by [except Exception]. *)
Definition load_one (file_path : pystr) : option DataFrame :=
  if endswith file_path (lit ".csv") then
    match read_with_fallback file_path with
    | Ok df => Some (set_column (lit "source_file") (CVal file_path) df)
    | Raise _ => None
    end
  else None.

Definition load_step (dataframes : list DataFrame) (file_path : pystr)
  : list DataFrame :=
  match load_one file_path with
  | Some df => dataframes ++ [df]
  | None => dataframes
  end.

Definition _load_multiple_files (data_sources : list pystr) : result DataFrame :=
  let dataframes := foldl load_step [] data_sources in
  match dataframes with
  | [] => Raise (ValueError (lit "No valid CSV files could be loaded"))
  | _ => Ok (pd_concat dataframes)
  end.
End WithFiles.
End Loader.

(** ** The persistent vector store (Chroma) and the generation service *)

Record Metadata := {
  md_job_title : pystr;
  md_skills : pystr;
  md_experience : pystr;
  md_role_category : pystr;
  md_industry : pystr;
  md_salary : pystr
}.

Record Entry := {
  e_id : pystr;
  e_document : pystr;
  e_metadata : Metadata
}.

Record Collection := {
  coll_description : pystr;
  coll_entries : list Entry
}.

(** What [collection.query] returns: one inner list per query text. *)
Record QueryResults := {
  qr_metadatas : list (list Metadata);
  qr_distances : list (list Qc)
}.

(** The argument of [chat.completions.create]. *)
Record ChatRequest := {
  req_model : pystr;
  req_messages : list (pystr * pystr);
  req_max_tokens : Z;
  req_temperature : Qc
}.

(** Calls that leave the process, in the order they are made. *)
Inductive Event :=
| EvGetCollection (name : pystr)
| EvCreateCollection (name : pystr)
| EvAdd (name : pystr) (ids : list pystr)
| EvQuery (name : pystr) (query_texts : list pystr) (n_results : Z)
| EvCompletion (req : ChatRequest).

Definition is_add (ev : Event) : bool :=
  match ev with EvAdd _ _ => true | _ => false end.

Definition is_query (ev : Event) : bool :=
  match ev with EvQuery _ _ _ => true | _ => false end.

(** One element of the list [search_relevant_jobs] returns. *)
Record Job := {
  job_title : pystr;
  skills : pystr;
  experience : pystr;
  role_category : pystr;
  industry : pystr;
  salary : pystr;
  relevance_score : Qc
}.

(** The dict [get_career_insights] returns. *)
Record Insights := {
  insights : pystr;
  relevant_jobs : list Job;
  skills_analysis : pystr
}.

(** An element of [chat_history]. *)
Record ChatTurn := {
  role : pystr;
  content : pystr
}.

(** The fields of [self] that the methods read or assign. *)
Record Engine := {
  data_sources : list pystr;
  collection : option pystr;
  jobs_df : option DataFrame;
  client_groq : option pystr
}.

Definition set_collection (self : Engine) (c : pystr) : Engine :=
  {| data_sources := data_sources self; collection := Some c;
     jobs_df := jobs_df self; client_groq := client_groq self |}.

Definition set_jobs_df (self : Engine) (df : DataFrame) : Engine :=
  {| data_sources := data_sources self; collection := collection self;
     jobs_df := Some df; client_groq := client_groq self |}.

Definition job_database : pystr := lit "job_database".

Module RAG.
Section WithServices.
(** State of the generation service, and its completion endpoint: the text
    of [choices[0].message.content], or the exception of the client. *)
Variable G : Type.
Variable groq_create : pystr -> ChatRequest -> G -> result pystr * G.
(** Nearest-neighbour search of the index over the stored entries. *)
Variable index_query : list Entry -> list pystr -> Z -> result QueryResults.
Variable read_csv : pystr -> Encoding -> result DataFrame.

Record World := {
  chroma : gmap pystr Collection;
  service : G;
  trace : list Event
}.

Definition log (ev : Event) (w : World) : World :=
  {| chroma := chroma w; service := service w; trace := trace w ++ [ev] |}.

Definition set_chroma (st : gmap pystr Collection) (w : World) : World :=
  {| chroma := st; service := service w; trace := trace w |}.

Definition set_service (g : G) (w : World) : World :=
  {| chroma := chroma w; service := g; trace := trace w |}.

(** *** Computations that may raise and that act on the world *)

Definition M (A : Type) : Type := World -> result A * World.

Definition ret {A} (a : A) : M A := fun w => (Ok a, w).

Definition raise {A} (e : exn) : M A := fun w => (Raise e, w).

Definition bind {A B} (m : M A) (k : A -> M B) : M B :=
  fun w =>
    match m w with
    | (Ok a, w') => k a w'
    | (Raise e, w') => (Raise e, w')
    end.

Definition lift {A} (r : result A) : M A := fun w => (r, w).

(** [try: m  except: handler] *)
Definition try_except {A} (m : M A) (handler : exn -> M A) : M A :=
  fun w =>
    match m w with
    | (Ok a, w') => (Ok a, w')
    | (Raise e, w') => handler e w'
    end.

Notation "'let*' x ':=' m 'in' k" := (bind m (fun x => k))
  (at level 10, x name, m at level 100, k at level 200).

Fixpoint for_each {A} (xs : list A) (body : A -> M unit) : M unit :=
  match xs with
  | [] => ret tt
  | x :: xs' => let* _ := body x in for_each xs' body
  end.

(** *** Client operations *)

Definition get_collection (name : pystr) : M pystr :=
  fun w =>
    match chroma w !! name with
    | Some _ => (Ok name, log (EvGetCollection name) w)
    | None => (Raise (NotFoundError name), log (EvGetCollection name) w)
    end.

Definition create_collection (name description : pystr) : M pystr :=
  fun w =>
    match chroma w !! name with
    | Some _ =>
        (Raise (UniqueConstraintError name), log (EvCreateCollection name) w)
    | None =>
        (Ok name,
         log (EvCreateCollection name)
           (set_chroma
              (<[name := {| coll_description := description;
                            coll_entries := [] |}]> (chroma w)) w))
    end.

Definition make_entries (documents : list pystr) (metadatas : list Metadata)
    (ids : list pystr) : list Entry :=
  (fun '(id, (doc, md)) =>
     {| e_id := id; e_document := doc; e_metadata := md |})
    <$> zip ids (zip documents metadatas).

(** [collection.add(documents=..., metadatas=..., ids=...)]: the records
    are appended as they come. *)
Definition collection_add (name : pystr) (documents : list pystr)
    (metadatas : list Metadata) (ids : list pystr) : M unit :=
  fun w =>
    match chroma w !! name with
    | Some c =>
        (Ok tt,
         log (EvAdd name ids)
           (set_chroma
              (<[name := {| coll_description := coll_description c;
                            coll_entries :=
                              coll_entries c
                              ++ make_entries documents metadatas ids |}]>
                 (chroma w)) w))
    | None => (Raise (NotFoundError name), log (EvAdd name ids) w)
    end.

(** [collection.query(query_texts=..., n_results=...)] *)
Definition collection_query (name : pystr) (query_texts : list pystr)
    (n_results : Z) : M QueryResults :=
  fun w =>
    match chroma w !! name with
    | Some c =>
        (index_query (coll_entries c) query_texts n_results,
         log (EvQuery name query_texts n_results) w)
    | None =>
        (Raise (NotFoundError name),
         log (EvQuery name query_texts n_results) w)
    end.

(** [self.client_groq.chat.completions.create(...)] followed by
    [.choices[0].message.content]; on [None] the attribute access raises
    before anything is sent. *)
Definition chat_completions_create (client : option pystr)
    (req : ChatRequest) : M pystr :=
  match client with
  | None =>
      raise (AttributeError (lit "'NoneType' object has no attribute 'chat'"))
  | Some api_key =>
      fun w =>
        let '(r, g') := groq_create api_key req (service w) in
        (r, log (EvCompletion req) (set_service g' w))
  end.

(** *** Building the index *)

Definition na : Cell := CVal (lit "N/A").

(** The f-string of [_create_vector_store], before [.strip()]. *)
Definition doc_text (row : gmap pystr Cell) : pystr :=
  let field col := str_of_cell (row_get row (lit col) na) in
  join nl
    [ lit "";
      lit "                Job Title: " ++ field "Job Title";
      lit "                Key Skills: " ++ field "Key Skills";
      lit "                Experience Required: "
        ++ field "Job Experience Required";
      lit "                Role Category: " ++ field "Role Category";
      lit "                Functional Area: " ++ field "Functional Area";
      lit "                Industry: " ++ field "Industry";
      lit "                Salary: " ++ field "Job Salary";
      lit "                " ].

Definition metadata_of_row (row : gmap pystr Cell) : Metadata :=
  let field col := str_of_cell (row_get row (lit col) na) in
  {| md_job_title := field "Job Title";
     md_skills := field "Key Skills";
     md_experience := field "Job Experience Required";
     md_role_category := field "Role Category";
     md_industry := field "Industry";
     md_salary := field "Job Salary" |}.

(** [f"job_{idx}"] *)
Definition job_id (idx : nat) : pystr := lit "job_" ++ str_of_nat idx.

(** The rows of a frame with their index labels, as [iterrows] yields. *)
Definition iterrows (df : DataFrame) : list (nat * gmap pystr Cell) :=
  zip (seq 0 (df_len df)) (df_rows df).

(** [df.iloc[i:j]] on labelled rows. *)
Definition iloc {A} (i j : nat) (items : list A) : list A :=
  take (j - i) (drop i items).

(** [range(0, n, step)] *)
Definition range_step (n step : nat) : list nat :=
  (fun k => k * step)%nat <$> seq 0 ((n + (step - 1)) / step)%nat.

Definition batch_size : nat := 100.

(** One turn of the batch loop of [_create_vector_store]. *)
Definition add_batch (coll : pystr) (df : DataFrame) (i : nat) : M unit :=
  let batch := iloc i (i + batch_size) (iterrows df) in
  let documents := (fun '(idx, row) => strip (doc_text row)) <$> batch in
  let metadatas := (fun '(idx, row) => metadata_of_row row) <$> batch in
  let ids := (fun '(idx, row) => job_id idx) <$> batch in
  collection_add coll documents metadatas ids.

Definition _create_vector_store (self : Engine) : M Engine :=
  let* df := lift (Loader._load_multiple_files read_csv (data_sources self)) in
  let self := set_jobs_df self df in
  let* coll :=
    create_collection job_database
      (lit "Job listings with skills and requirements") in
  let self := set_collection self coll in
  let* _ := for_each (range_step (df_len df) batch_size) (add_batch coll df) in
  ret self.

Definition _initialize_vector_store (self : Engine) : M Engine :=
  try_except
    (let* coll := get_collection job_database in
     ret (set_collection self coll))
    (fun _ => _create_vector_store self).

(** [RAGEngine.__init__]; [api_key] is [os.getenv("GROQ_API_KEY")]. *)
Definition __init__ (sources : option (list pystr)) (api_key : option pystr)
  : M Engine :=
  let sources :=
    match sources with
    | None => [lit "data/jobs.csv"]
    | Some l => l
    end in
  let self :=
    {| data_sources := sources;
       collection := None;
       jobs_df := None;
       client_groq :=
         match api_key with
         | Some (c :: k) => Some (c :: k)
         | _ => None
         end |} in
  _initialize_vector_store self.

(** *** Retrieval *)

(** [l[i]] for [i >= 0] *)
Definition item {A} (l : list A) (i : nat) : result A :=
  match l !! i with
  | Some x => Ok x
  | None => Raise IndexError
  end.

Definition job_of (metadata : Metadata) (distance : Qc) : Job :=
  {| job_title := md_job_title metadata;
     skills := md_skills metadata;
     experience := md_experience metadata;
     role_category := md_role_category metadata;
     industry := md_industry metadata;
     salary := md_salary metadata;
     relevance_score := (1 - distance)%Qc |}.

(** The loop over [enumerate(results['metadatas'][0])]. *)
Fixpoint collect_jobs (results : QueryResults) (i : nat)
    (metadatas : list Metadata) (relevant_jobs : list Job)
  : result (list Job) :=
  match metadatas with
  | [] => Ok relevant_jobs
  | metadata :: rest =>
      match item (qr_distances results) 0 with
      | Raise e => Raise e
      | Ok distances0 =>
          match item distances0 i with
          | Raise e => Raise e
          | Ok d =>
              collect_jobs results (S i) rest
                (relevant_jobs ++ [job_of metadata d])
          end
      end
  end.

Definition jobs_of_results (results : QueryResults) : result (list Job) :=
  match item (qr_metadatas results) 0 with
  | Raise e => Raise e
  | Ok metadatas0 => collect_jobs results 0 metadatas0 []
  end.

Definition search_relevant_jobs (self : Engine) (query : pystr)
    (n_results : Z) : M (list Job) :=
  let* coll :=
    match collection self with
    | Some c => ret c
    | None =>
        raise (AttributeError
                 (lit "'NoneType' object has no attribute 'query'"))
    end in
  let* results := collection_query coll [query] n_results in
  lift (jobs_of_results results).

(** *** Insight composer *)

Definition model_name : pystr := lit "llama-3.1-8b-instant".

Definition user_request (prompt : pystr) (max_tokens : Z) (temperature : Qc)
  : ChatRequest :=
  {| req_model := model_name;
     req_messages := [(lit "user", prompt)];
     req_max_tokens := max_tokens;
     req_temperature := temperature |}.

Definition skills_prompt (resume_text : pystr) : pystr :=
  join nl
    [ lit "";
      lit "        Extract the key skills, technologies, and experience level from this resume.";
      lit "        Return as a structured summary:";
      lit "        ";
      lit "        Resume: " ++ slice_to 2000 resume_text ++ lit "...";
      lit "        ";
      lit "        Format:";
      lit "        Skills: [list of skills]";
      lit "        Experience Level: [junior/mid/senior]";
      lit "        Domain: [primary domain/field]";
      lit "        " ].

Definition job_line (job : Job) : pystr :=
  lit "Job: " ++ job_title job ++ lit " | Skills: " ++ skills job
  ++ lit " | Experience: " ++ experience job
  ++ lit " | Industry: " ++ industry job.

Definition insights_prompt (skills_analysis jobs_context : pystr)
    (user_query : option pystr) : pystr :=
  join nl
    [ lit "";
      lit "        Based on the resume analysis and current job market data, provide comprehensive career insights:";
      lit "        ";
      lit "        Resume Analysis: " ++ skills_analysis;
      lit "        ";
      lit "        Relevant Job Market Data:";
      lit "        " ++ jobs_context;
      lit "        ";
      lit "        User Query: "
        ++ or_else user_query (lit "General career guidance");
      lit "        ";
      lit "        Provide insights on:";
      lit "        1. Career progression opportunities";
      lit "        2. Skill gaps and recommendations";
      lit "        3. Salary expectations";
      lit "        4. Industry trends";
      lit "        5. Next career steps";
      lit "        ";
      lit "        Be specific and actionable.";
      lit "        " ].

Definition get_career_insights (self : Engine) (resume_text : pystr)
    (user_query : option pystr) : M Insights :=
  let* skills_response :=
    chat_completions_create (client_groq self)
      (user_request (skills_prompt resume_text) 500 (Q2Qc (7 # 10))) in
  let skills_analysis := strip skills_response in
  let search_query := skills_analysis ++ lit " " ++ or_else user_query [] in
  let* relevant_jobs := search_relevant_jobs self search_query 15 in
  let jobs_context := join nl (job_line <$> slice_to 10 relevant_jobs) in
  let* insights_response :=
    chat_completions_create (client_groq self)
      (user_request (insights_prompt skills_analysis jobs_context user_query)
         800 (Q2Qc (7 # 10))) in
  let insights := strip insights_response in
  ret {| insights := insights;
         relevant_jobs := relevant_jobs;
         skills_analysis := skills_analysis |}.

(** One line of the transcript. *)
Definition turn_line (msg : ChatTurn) : pystr :=
  (if bool_decide (role msg = lit "user") then lit "User"
   else lit "Assistant")
  ++ lit ": " ++ content msg.

(** The local [conversation] of [chat_with_career_advisor]. *)
Definition conversation (chat_history : list ChatTurn) : pystr :=
  join nl (turn_line <$> slice_from (-5) chat_history).

(** The bullet of the source, as it stands in the file. *)
Definition bullet : pystr := [226; 8364; 162].

Definition market_line (job : Job) : pystr :=
  bullet ++ lit " " ++ job_title job ++ lit " - "
  ++ slice_to 100 (skills job).

Definition chat_prompt (career_data : Insights)
    (chat_history : list ChatTurn) (user_message : pystr) : pystr :=
  join nl
    [ lit "";
      lit "        You are an expert career advisor with access to current job market data. ";
      lit "        ";
      lit "        Resume Summary: "
        ++ slice_to 500 (skills_analysis career_data);
      lit "        ";
      lit "        Recent Job Market Insights:";
      lit "        "
        ++ join nl (market_line <$> slice_to 5 (relevant_jobs career_data));
      lit "        ";
      lit "        Conversation History:";
      lit "        " ++ conversation chat_history;
      lit "        ";
      lit "        User Question: " ++ user_message;
      lit "        ";
      lit "        Provide helpful, specific career advice based on the resume and current job market. ";
      lit "        Be conversational and supportive.";
      lit "        " ].

Definition chat_with_career_advisor (self : Engine) (resume_text : pystr)
    (chat_history : list ChatTurn) (user_message : pystr) : M pystr :=
  let* career_data :=
    get_career_insights self resume_text (Some user_message) in
  let* chat_response :=
    chat_completions_create (client_groq self)
      (user_request (chat_prompt career_data chat_history user_message)
         600 (Q2Qc (8 # 10))) in
  let response := strip chat_response in
  ret response.

End WithServices.

Arguments chroma {G} w.
Arguments service {G} w.
Arguments trace {G} w.
Arguments Build_World {G} chroma service trace.
Arguments log {G}.
Arguments set_chroma {G}.
Arguments set_service {G}.
Arguments ret {G A}.
Arguments raise {G A}.
Arguments bind {G A B}.
Arguments lift {G A}.
Arguments try_except {G A}.
Arguments for_each {G A}.
Arguments get_collection {G}.
Arguments create_collection {G}.
Arguments collection_add {G}.
Arguments collection_query {G}.
Arguments chat_completions_create {G}.
Arguments add_batch {G}.
Arguments _create_vector_store {G}.
Arguments _initialize_vector_store {G}.
Arguments __init__ {G}.
Arguments search_relevant_jobs {G}.
Arguments get_career_insights {G}.
Arguments chat_with_career_advisor {G}.

End RAG.

(** ** Notions used in the statements *)

(** [results['distances'][0][k]], when it exists. *)
Definition distance_at (results : QueryResults) (k : nat) : option Qc :=
  qr_distances results !! 0%nat ≫= (fun ds => ds !! k).

(** Neighbours come in ascending order of distance. *)
Definition ascending (ds : list Qc) : Prop :=
  forall i j di dj,
    (i < j)%nat -> ds !! i = Some di -> ds !! j = Some dj -> (di <= dj)%Qc.

(** Scores do not increase with the rank. *)
Definition non_increasing (jobs : list Job) : Prop :=
  forall i j ji jj,
    (i < j)%nat -> jobs !! i = Some ji -> jobs !! j = Some jj ->
    (relevance_score jj <= relevance_score ji)%Qc.

Definition in_unit_interval (x : Qc) : Prop := (0 <= x)%Qc /\ (x <= 1)%Qc.

(** A source the loader can load: its name ends in [.csv] and [read_csv]
    returns a frame, under utf-8 or, when utf-8 raises [UnicodeDecodeError],
    under latin-1. *)
Definition loadable (read_csv : pystr -> Encoding -> result DataFrame)
    (file_path : pystr) : bool :=
  Loader.endswith file_path (lit ".csv")
  && match read_csv file_path Utf8 with
     | Ok _ => true
     | Raise UnicodeDecodeError => is_ok (read_csv file_path Latin1)
     | Raise _ => false
     end.

Definition collection_description : pystr :=
  lit "Job listings with skills and requirements".

Definition no_valid_csv : exn :=
  ValueError (lit "No valid CSV files could be loaded").

(** The records the build stores for labelled rows. *)
Definition entries_of (items : list (nat * gmap pystr Cell)) : list Entry :=
  (fun '(idx, row) =>
     {| e_id := RAG.job_id idx;
        e_document := strip (RAG.doc_text row);
        e_metadata := RAG.metadata_of_row row |}) <$> items.

Definition none_has_no_chat : exn :=
  AttributeError (lit "'NoneType' object has no attribute 'chat'").

(** The two requests of [get_career_insights]. *)
Definition skills_request (resume_text : pystr) : ChatRequest :=
  RAG.user_request (RAG.skills_prompt resume_text) 500 (Q2Qc (7 # 10)).

Definition insights_request (content : pystr) (jobs : list Job)
    (user_query : option pystr) : ChatRequest :=
  RAG.user_request
    (RAG.insights_prompt (strip content)
       (join nl (RAG.job_line <$> slice_to 10 jobs)) user_query)
    800 (Q2Qc (7 # 10)).

(** ** Concrete instances

    A small world to run the engine in: a store that already holds the
    collection, and an index that reports two neighbours. *)

Module Demo.

Definition backend : Metadata :=
  {| md_job_title := lit "Backend Engineer";
     md_skills := lit "python,django,postgres";
     md_experience := lit "2 - 5 yrs";
     md_role_category := lit "Programming & Design";
     md_industry := lit "IT-Software";
     md_salary := lit "Not Disclosed by Recruiter" |}.

Definition frontend : Metadata :=
  {| md_job_title := lit "Frontend Engineer";
     md_skills := lit "react,css,html";
     md_experience := lit "1 - 3 yrs";
     md_role_category := lit "Programming & Design";
     md_industry := lit "IT-Software";
     md_salary := lit "Not Disclosed by Recruiter" |}.

Definition stored : list Entry :=
  [ {| e_id := lit "job_0"; e_document := lit "Job Title: Backend Engineer";
       e_metadata := backend |};
    {| e_id := lit "job_1"; e_document := lit "Job Title: Frontend Engineer";
       e_metadata := frontend |} ].

(** An index whose second neighbour lies at distance 2. *)
Definition two_neighbours (entries : list Entry) (query_texts : list pystr)
    (n_results : Z) : result QueryResults :=
  Ok {| qr_metadatas := [e_metadata <$> entries];
        qr_distances := [[Q2Qc (1 # 4); Q2Qc 2]] |}.

Definition world_with {G} (g : G) : RAG.World G :=
  {| RAG.chroma :=
       {[ job_database :=
            {| coll_description :=
                 lit "Job listings with skills and requirements";
               coll_entries := stored |} ]};
     RAG.service := g;
     RAG.trace := [] |}.

Definition world : RAG.World unit := world_with tt.

Definition engine : Engine :=
  {| data_sources := [lit "data/jobs.csv"];
     collection := Some job_database;
     jobs_df := None;
     client_groq := None |}.

Definition keyed_engine : Engine :=
  {| data_sources := [lit "data/jobs.csv"];
     collection := Some job_database;
     jobs_df := None;
     client_groq := Some (lit "gsk_demo") |}.

(** A generation service that answers a given number of calls and is
    unreachable afterwards. *)
Definition flaky_service (api_key : pystr) (req : ChatRequest) (left : nat)
  : result pystr * nat :=
  match left with
  | O => (Raise (ServiceError (lit "Connection error.")), O)
  | S left' => (Ok (lit "Skills: python, django "), left')
  end.

(** A machine without any data file. *)
Definition no_files (file_path : pystr) (encoding : Encoding)
  : result DataFrame :=
  Raise FileNotFoundError.

Definition posting (title skills : string) : gmap pystr Cell :=
  {[ lit "Job Title" := CVal (lit title); lit "Key Skills" := CVal (lit skills) ]}.

(** Two postings in a file that is not valid utf-8, one in a second file,
    a file with a header and no row, a text file, and nothing else. *)
Definition files (file_path : pystr) (encoding : Encoding)
  : result DataFrame :=
  if bool_decide (file_path = lit "data/jobs.csv") then
    match encoding with
    | Utf8 => Raise UnicodeDecodeError
    | Latin1 =>
        Ok {| df_columns := [lit "Job Title"; lit "Key Skills"];
              df_rows := [posting "Backend Engineer" "python,django,postgres";
                          posting "Frontend Engineer" "react,css,html"] |}
    end
  else if bool_decide (file_path = lit "data/more.csv") then
    Ok {| df_columns := [lit "Job Title"; lit "Key Skills"; lit "Industry"];
          df_rows := [<[lit "Industry" := CVal (lit "Media")]>
                        (posting "Editor" "writing")] |}
  else if bool_decide (file_path = lit "data/empty.csv") then
    Ok {| df_columns := [lit "Job Title"; lit "Key Skills"]; df_rows := [] |}
  else if bool_decide (file_path = lit "notes.txt") then
    Ok {| df_columns := [lit "Job Title"];
          df_rows := [{[ lit "Job Title" := CVal (lit "Clerk") ]}] |}
  else Raise FileNotFoundError.

Definition fresh_world : RAG.World unit :=
  {| RAG.chroma := ∅; RAG.service := tt; RAG.trace := [] |}.

Definition new_engine (sources : list pystr) : Engine :=
  {| data_sources := sources; collection := None; jobs_df := None;
     client_groq := None |}.

Definition resume : pystr := lit "Backend developer, 3 years of python.".

Definition turn (r c : string) : ChatTurn :=
  {| role := lit r; content := lit c |}.

Definition older_turns : list ChatTurn :=
  [turn "user" "t1"; turn "assistant" "t2"; turn "user" "t3"].

Definition recent_turns : list ChatTurn :=
  [turn "assistant" "t4"; turn "user" "t5"; turn "assistant" "t6";
   turn "user" "t7"; turn "assistant" "t8"].

End Demo.

Definition set_client_groq (self : Engine) (client : option pystr) : Engine :=
  {| data_sources := data_sources self; collection := collection self;
     jobs_df := jobs_df self; client_groq := client |}.

Definition map_result {A B} (f : A -> B) (r : result A) : result B :=
  match r with Ok a => Ok (f a) | Raise e => Raise e end.


(** ** Further notions used in the statements *)

(** The ids sent by the batch of the build that starts at row [i]. *)
Definition batch_ids (df : DataFrame) (i : nat) : list pystr :=
  (fun '(idx, row) => RAG.job_id idx)
    <$> RAG.iloc i (i + RAG.batch_size) (RAG.iterrows df).

(** The sources of an engine built with [sources]. *)
Definition sources_or_default (sources : option (list pystr)) : list pystr :=
  match sources with
  | None => [lit "data/jobs.csv"]
  | Some l => l
  end.

(** The six columns kept as metadata, with the field each one fills. *)
Definition metadata_columns : list (string * (Metadata -> pystr)) :=
  [ ("Job Title", md_job_title); ("Key Skills", md_skills);
    ("Job Experience Required", md_experience);
    ("Role Category", md_role_category); ("Industry", md_industry);
    ("Job Salary", md_salary) ].

(** A text with no whitespace at either end. *)
Definition trimmed (s : pystr) : bool :=
  negb (from_option isspace false (list.head s))
  && negb (from_option isspace false (list.last s)).

Module Samples.

(** An index that reports two neighbours and one distance. *)
Definition one_distance (entries : list Entry) (query_texts : list pystr)
    (n_results : Z) : result QueryResults :=
  Ok {| qr_metadatas := [[Demo.backend; Demo.frontend]];
        qr_distances := [[Q2Qc (1 # 4)]] |}.

End Samples.

(** ** Salary and experience helpers ([CareerAnalytics]) *)

(** [sub in s] *)
Fixpoint contains (sub s : pystr) : bool :=
  match s with
  | [] => bool_decide (sub = [])
  | _ :: s' => bool_decide (sub `prefix_of` s) || contains sub s'
  end.

(** [re.findall] for a pattern [[class]+]: the maximal runs of characters of
    the class, from left to right. *)
Fixpoint findall_runs (cls : N -> bool) (s : pystr) : list pystr :=
  match s with
  | [] => []
  | c :: s' =>
      if cls c then
        match s' with
        | c' :: _ =>
            if cls c' then Skills.push_char c (findall_runs cls s')
            else [c] :: findall_runs cls s'
        | [] => [[c]]
        end
      else findall_runs cls s'
  end.

(** [sum(values) // len(values)] *)
Definition average (values : list N) : N :=
  (foldr N.add 0 values / N.of_nat (length values))%N.

Fixpoint mapM_result {A B} (f : A -> result B) (l : list A)
  : result (list B) :=
  match l with
  | [] => Ok []
  | x :: l' =>
      match f x with
      | Raise e => Raise e
      | Ok y =>
          match mapM_result f l' with
          | Raise e => Raise e
          | Ok ys => Ok (y :: ys)
          end
      end
  end.

Module Analytics.
Section WithRuntime.
(** Decimal value of a code point of category Nd ([\d] of [re], the digits
    [int] accepts), from the Unicode tables of the runtime. *)
Variable decimal : N -> option N.
(** [sys.get_int_max_str_digits()]: 0 when conversions are not limited,
    and no less than 640 otherwise. *)
Variable max_str_digits : nat.

Definition is_digit (c : N) : bool :=
  match decimal c with Some _ => true | None => false end.

Definition comma : N := 44.

Definition digit_or_comma (c : N) : bool := is_digit c || (c =? comma).

Definition invalid_literal (s : pystr) : exn :=
  ValueError (lit "invalid literal for int() with base 10: '" ++ s ++ lit "'").

Definition too_many_digits (digits : nat) : exn :=
  ValueError
    (lit "Exceeds the limit (" ++ str_of_nat max_str_digits
     ++ lit " digits) for integer string conversion: value has "
     ++ str_of_nat digits
     ++ lit " digits; use sys.set_int_max_str_digits() to increase the limit").

Fixpoint digits_value (acc : N) (s : pystr) : option N :=
  match s with
  | [] => Some acc
  | c :: s' =>
      match decimal c with
      | Some d => digits_value (acc * 10 + d) s'
      | None => None
      end
  end.

(** [int(s)] on a string of decimal digits, possibly empty: the only
    strings it is given here. *)
Definition py_int (s : pystr) : result N :=
  match s with
  | [] => Raise (invalid_literal s)
  | _ =>
      if (0 <? max_str_digits)%nat && (max_str_digits <? length s)%nat
      then Raise (too_many_digits (length s))
      else
        match digits_value 0 s with
        | Some v => Ok v
        | None => Raise (invalid_literal s)
        end
  end.

(** [num.replace(',', '')] *)
Definition remove_commas (num : pystr) : pystr :=
  List.filter (fun c => negb (c =? comma)) num.

(** The value kept for a non-empty list of numbers. *)
Definition range_value (values : list N) : option N :=
  match values with
  | [] => None
  | [v] => Some v
  | _ => Some (average values)
  end.

Definition _extract_salary (salary_str : Cell) : option N :=
  if isna salary_str
     || contains (lit "Not Disclosed") (str_of_cell salary_str)
  then None
  else
    let numbers := findall_runs digit_or_comma (str_of_cell salary_str) in
    match numbers with
    | [] => None
    | _ =>
        match mapM_result (fun num => py_int (remove_commas num)) numbers with
        | Ok values => range_value values
        | Raise _ => None
        end
    end.

Definition _extract_experience (exp_str : Cell) : result (option N) :=
  if isna exp_str then Ok None
  else
    let numbers := findall_runs is_digit (str_of_cell exp_str) in
    match numbers with
    | [] => Ok None
    | _ =>
        match mapM_result py_int numbers with
        | Ok values => Ok (range_value values)
        | Raise e => Raise e
        end
    end.

End WithRuntime.

(** The ASCII digits, for concrete runs. *)
Definition decimal_ascii (c : N) : option N :=
  if (48 <=? c) && (c <=? 57) then Some (c - 48) else None.

End Analytics.

(** ** Skill demand ([CareerAnalytics.get_skill_demand_analysis]) *)

Module Demand.

(** A dict with its keys in insertion order. *)
Fixpoint dict_get {V} (d : list (pystr * V)) (k : pystr) : option V :=
  match d with
  | [] => None
  | (k', v) :: rest => if bool_decide (k' = k) then Some v else dict_get rest k
  end.

(** [d[k] = v]: a key that is there keeps its place. *)
Fixpoint dict_set {V} (k : pystr) (v : V) (d : list (pystr * V))
  : list (pystr * V) :=
  match d with
  | [] => [(k, v)]
  | (k', v') :: rest =>
      if bool_decide (k' = k) then (k', v) :: rest
      else (k', v') :: dict_set k v rest
  end.

(** One more occurrence of [k] in a [Counter]. *)
Definition count_add (k : pystr) (counts : list (pystr * nat))
  : list (pystr * nat) :=
  dict_set k (S (default 0%nat (dict_get counts k))) counts.

(** [Counter(items)] *)
Definition Counter (items : list pystr) : list (pystr * nat) :=
  foldl (fun counts k => count_add k counts) [] items.

(** [counts.get(k, 0)] *)
Definition counter_get (counts : list (pystr * nat)) (k : pystr) : nat :=
  default 0%nat (dict_get counts k).

(** Insertion in a list sorted by decreasing count, before the entries that
    do not have a larger count. *)
Fixpoint insert_desc (x : pystr * nat) (l : list (pystr * nat))
  : list (pystr * nat) :=
  match l with
  | [] => [x]
  | y :: l' =>
      if (y.2 <=? x.2)%nat then x :: y :: l' else y :: insert_desc x l'
  end.

(** [sorted(items, key=itemgetter(1), reverse=True)]: stable, so entries
    with equal counts keep their order. *)
Definition sorted_desc (l : list (pystr * nat)) : list (pystr * nat) :=
  foldr insert_desc [] l.

(** [counts.most_common(n)] *)
Definition most_common (n : nat) (counts : list (pystr * nat))
  : list (pystr * nat) :=
  take n (sorted_desc counts).

(** The arguments a bar chart is built from. *)
Record BarChart := {
  bar_x : list pystr;
  bar_y : list nat;
  bar_title : pystr;
  bar_labels : list (pystr * pystr);
  bar_template : pystr;
  bar_tickangle : option Z
}.

Record SkillDemand := {
  user_skill_demand : list (pystr * nat);
  top_market_skills : list (pystr * nat);
  user_skills_chart : option BarChart;
  market_trends_chart : BarChart
}.

Definition chart_labels : list (pystr * pystr) :=
  [(lit "x", lit "Skills"); (lit "y", lit "Job Postings Count")].

Section WithLower.
Variable lower : pystr -> pystr.

(** [skills_lists] is the column [skills_list] of [self.jobs_df]. *)
Definition get_skill_demand_analysis (skills_lists : list (list pystr))
    (user_skills : list pystr) : SkillDemand :=
  let all_skills :=
    foldl (fun all skills_list => all ++ skills_list) [] skills_lists in
  let skill_counts := Counter all_skills in
  let user_skill_demand :=
    foldl (fun demand skill =>
             let skill_lower := lower skill in
             dict_set skill (counter_get skill_counts skill_lower) demand)
      [] user_skills in
  let top_skills := most_common 20 skill_counts in
  let fig_user :=
    match user_skill_demand with
    | [] => None
    | _ =>
        Some {| bar_x := user_skill_demand.*1;
                bar_y := user_skill_demand.*2;
                bar_title := lit "Demand for Your Skills";
                bar_labels := chart_labels;
                bar_template := lit "plotly_white";
                bar_tickangle := None |}
    end in
  let fig_market :=
    {| bar_x := slice_to 15 (top_skills.*1);
       bar_y := slice_to 15 (top_skills.*2);
       bar_title := lit "Top 15 In-Demand Skills in Market";
       bar_labels := chart_labels;
       bar_template := lit "plotly_white";
       bar_tickangle := Some 45%Z |} in
  {| user_skill_demand := user_skill_demand;
     top_market_skills := top_skills;
     user_skills_chart := fig_user;
     market_trends_chart := fig_market |}.

End WithLower.

(** Number of occurrences of [k] in [items]. *)
Definition occurrences (k : pystr) (items : list pystr) : nat :=
  length (List.filter (fun x => bool_decide (x = k)) items).

End Demand.

(** Entries in order of non-increasing count. *)
Definition by_count_desc (a b : pystr * nat) : Prop := (b.2 <= a.2)%nat.

(** ** Direct generation helper ([src/helper.py]) *)

(** Decoding of a UTF-8 literal of the source into code points. *)
Fixpoint utf8_go (pending : nat) (acc : N) (bs : list N) : pystr :=
  match bs with
  | [] => []
  | b :: bs' =>
      match pending with
      | O =>
          if b <? 128 then b :: utf8_go 0 0 bs'
          else if b <? 224 then utf8_go 1 (b - 192) bs'
          else if b <? 240 then utf8_go 2 (b - 224) bs'
          else utf8_go 3 (b - 240) bs'
      | S p =>
          let acc' := acc * 64 + (b - 128) in
          match p with
          | O => acc' :: utf8_go 0 0 bs'
          | S _ => utf8_go p acc' bs'
          end
      end
  end.

Definition utf8 (s : string) : pystr := utf8_go 0 0 (lit s).

Module Helper.

(** The notice returned when no client is configured. *)
Definition api_key_required : pystr :=
  join nl
    [ utf8 "";
      utf8 "        ⚠️ **API Key Required**";
      utf8 "        ";
      utf8 "        Please enter your GROQ API key in sidebar to use AI features.";
      utf8 "        ";
      utf8 "        📝 **Steps:**";
      utf8 "        1. Visit [https://console.groq.com/](https://console.groq.com/)";
      utf8 "        2. Sign up for a free account";
      utf8 "        3. Copy your API key (starts with 'gsk_')";
      utf8 "        4. Enter it in sidebar and click 'Set API Key'";
      utf8 "        " ].

(** The notice returned for an authentication error. *)
Definition invalid_api_key : pystr :=
  join nl
    [ utf8 "";
      utf8 "            ❌ **Invalid API Key**";
      utf8 "            ";
      utf8 "            The API key you entered is not valid.";
      utf8 "            ";
      utf8 "            🔧 **Solutions:**";
      utf8 "            • Check if you copied the full key (64 characters)";
      utf8 "            • Ensure it starts with 'gsk_'";
      utf8 "            • Remove any extra spaces";
      utf8 "            • Generate a new key from [groq.com](https://console.groq.com/)";
      utf8 "            " ].

(** The canned replies of the demo mode. *)
Definition demo_summary : pystr :=
  join nl
    [ utf8 "";
      utf8 "        **📋 Resume Summary**";
      utf8 "        ";
      utf8 "        **Professional Profile:**";
      utf8 "        Experienced software developer with 3+ years in full-stack development, specializing in Python, JavaScript, and cloud technologies. Demonstrated expertise in building scalable web applications and leading cross-functional teams.";
      utf8 "        ";
      utf8 "        **Key Skills:**";
      utf8 "        • Programming: Python, JavaScript, Java, SQL";
      utf8 "        • Frameworks: React, Node.js, Django, Flask";
      utf8 "        • Cloud: AWS, Azure, Google Cloud";
      utf8 "        • Tools: Git, Docker, Kubernetes";
      utf8 "        ";
      utf8 "        **Education:**";
      utf8 "        Bachelor of Computer Science - GPA: 3.8/4.0";
      utf8 "        ";
      utf8 "        **Experience Highlights:**";
      utf8 "        • Led development of 5+ production applications";
      utf8 "        • Improved system performance by 40%";
      utf8 "        • Managed team of 4 developers";
      utf8 "        " ].

Definition demo_skill_gap : pystr :=
  join nl
    [ utf8 "";
      utf8 "        **🎯 Skill Gap Analysis**";
      utf8 "        ";
      utf8 "        **Current Strengths:**";
      utf8 "        ✅ Strong programming foundation";
      utf8 "        ✅ Full-stack development experience";
      utf8 "        ✅ Team leadership capabilities";
      utf8 "        ";
      utf8 "        **Identified Gaps:**";
      utf8 "        🔸 **Advanced Cloud Architecture:** Consider AWS Solutions Architect certification";
      utf8 "        🔸 **DevOps Practices:** Learn CI/CD pipelines with Jenkins/GitLab CI";
      utf8 "        🔸 **Machine Learning:** Basic ML/AI knowledge is becoming essential";
      utf8 "        🔸 **Security:** OWASP and security best practices";
      utf8 "        ";
      utf8 "        **Recommended Certifications:**";
      utf8 "        • AWS Certified Developer - Associate";
      utf8 "        • Google Cloud Professional Developer";
      utf8 "        • Certified Kubernetes Administrator (CKA)";
      utf8 "        ";
      utf8 "        **Timeline:** 3-6 months to close critical gaps";
      utf8 "        " ].

Definition demo_roadmap : pystr :=
  join nl
    [ utf8 "";
      utf8 "        **🚀 Personalized Career Roadmap**";
      utf8 "        ";
      utf8 "        **🎯 6-Month Plan:**";
      utf8 "        **Months 1-2: Skill Enhancement**";
      utf8 "        • Complete AWS Developer certification";
      utf8 "        • Master advanced React patterns";
      utf8 "        • Learn Docker and Kubernetes basics";
      utf8 "        ";
      utf8 "        **Months 3-4: Project Leadership**";
      utf8 "        • Lead a medium-scale project";
      utf8 "        • Implement CI/CD pipeline";
      utf8 "        • Mentor junior developers";
      utf8 "        ";
      utf8 "        **Months 5-6: Networking & Growth**";
      utf8 "        • Attend tech conferences/meetups";
      utf8 "        • Contribute to open source";
      utf8 "        • Build professional portfolio";
      utf8 "        ";
      utf8 "        **🎯 1-Year Vision:**";
      utf8 "        **Technical Growth:**";
      utf8 "        • Senior Developer position";
      utf8 "        • Cloud architecture expertise";
      utf8 "        • Team leadership role";
      utf8 "        ";
      utf8 "        **Career Moves:**";
      utf8 "        • Target FAANG/tech unicorn companies";
      utf8 "        • Consider technical product management";
      utf8 "        • Explore startup opportunities";
      utf8 "        ";
      utf8 "        **Salary Expectation:** 40-60% increase";
      utf8 "        " ].

Definition demo_learning_plan : pystr :=
  join nl
    [ utf8 "";
      utf8 "        **📚 Personalized Skill Learning Plan**";
      utf8 "        ";
      utf8 "        **🎯 Phase 1: Foundation Strengthening (Months 1-2)**";
      utf8 "        ";
      utf8 "        **Technical Skills:**";
      utf8 "        • **Cloud Computing:** Start with AWS Cloud Practitioner (2 weeks)";
      utf8 "        • **Containerization:** Docker fundamentals (1 week)";
      utf8 "        • **Version Control:** Advanced Git workflows (1 week)";
      utf8 "        ";
      utf8 "        **Resources:**";
      utf8 "        - AWS Free Tier tutorials";
      utf8 "        - Docker official documentation";
      utf8 "        - GitHub Learning Lab";
      utf8 "        ";
      utf8 "        **🎯 Phase 2: Advanced Technologies (Months 3-4)**";
      utf8 "        ";
      utf8 "        **Cloud Architecture:**";
      utf8 "        • AWS Solutions Architect Associate (6 weeks)";
      utf8 "        • Microservices with Kubernetes (4 weeks)";
      utf8 "        ";
      utf8 "        **Development Practices:**";
      utf8 "        • CI/CD with Jenkins/GitLab CI (2 weeks)";
      utf8 "        • Test-driven development (2 weeks)";
      utf8 "        ";
      utf8 "        **Resources:**";
      utf8 "        - AWS Certified Solutions Architect course";
      utf8 "        - Kubernetes documentation";
      utf8 "        - Jenkins tutorials";
      utf8 "        ";
      utf8 "        **🎯 Phase 3: Specialization (Months 5-6)**";
      utf8 "        ";
      utf8 "        **Choose Your Track:**";
      utf8 "        ";
      utf8 "        **🔹 Backend Focus:**";
      utf8 "        - Advanced system design";
      utf8 "        - Database optimization";
      utf8 "        - API security";
      utf8 "        ";
      utf8 "        **🔹 Frontend Focus:**";
      utf8 "        - React/Next.js advanced patterns";
      utf8 "        - Performance optimization";
      utf8 "        - Progressive Web Apps";
      utf8 "        ";
      utf8 "        **🔹 DevOps Focus:**";
      utf8 "        - Infrastructure as Code (Terraform)";
      utf8 "        - Monitoring and observability";
      utf8 "        - Site reliability engineering";
      utf8 "        ";
      utf8 "        **📅 Weekly Schedule:**";
      utf8 "        - **Monday/Wednesday/Friday:** 2 hours technical learning";
      utf8 "        - **Tuesday/Thursday:** 1 hour hands-on practice";
      utf8 "        - **Saturday:** 3 hours project work";
      utf8 "        - **Sunday:** Review and planning";
      utf8 "        ";
      utf8 "        **📊 Progress Tracking:**";
      utf8 "        - Create GitHub repository for learning projects";
      utf8 "        - Document progress in technical blog";
      utf8 "        - Join study groups or communities";
      utf8 "        - Schedule monthly skill assessments";
      utf8 "        ";
      utf8 "        **🎯 Success Metrics:**";
      utf8 "        - Complete 2 certifications within 6 months";
      utf8 "        - Build 3 portfolio projects";
      utf8 "        - Contribute to 2 open-source projects";
      utf8 "        - Network with 10+ industry professionals";
      utf8 "        " ].

Definition demo_salary : pystr :=
  join nl
    [ utf8 "";
      utf8 "        **💰 Salary Expectations & Negotiation Guide**";
      utf8 "        ";
      utf8 "        **📊 Current Market Analysis:**";
      utf8 "        ";
      utf8 "        **Your Experience Level:** 3+ years";
      utf8 "        **Your Skills:** Full-stack, Cloud, Leadership";
      utf8 "        ";
      utf8 "        **Salary Ranges (2024):**";
      utf8 "        • **Mid-level Developer:** $80,000 - $120,000";
      utf8 "        • **Senior Developer:** $120,000 - $160,000  ";
      utf8 "        • **Tech Lead:** $140,000 - $200,000";
      utf8 "        • **Staff Engineer:** $160,000 - $250,000";
      utf8 "        ";
      utf8 "        **🎯 Your Target Range:** $130,000 - $180,000";
      utf8 "        ";
      utf8 "        **💡 Negotiation Strategy:**";
      utf8 "        ";
      utf8 "        **Preparation:**";
      utf8 "        - Research company salary bands";
      utf8 "        - Document your achievements and impact";
      utf8 "        - Prepare market data from multiple sources";
      utf8 "        ";
      utf8 "        **Key Talking Points:**";
      utf8 "        - Led 5+ production applications";
      utf8 "        - Improved performance by 40%";
      utf8 "        - Managed team of 4 developers";
      utf8 "        - Cloud certifications and expertise";
      utf8 "        ";
      utf8 "        **Benefits to Negotiate:**";
      utf8 "        - Sign-on bonus ($10,000 - $20,000)";
      utf8 "        - Stock options/RSUs";
      utf8 "        - Professional development budget";
      utf8 "        - Flexible work arrangements";
      utf8 "        - Performance bonus structure";
      utf8 "        ";
      utf8 "        **📈 Timeline:**";
      utf8 "        - 6 months: Target 15-20% increase";
      utf8 "        - 1 year: Aim for senior position";
      utf8 "        - 2 years: Target tech lead role";
      utf8 "        " ].

Definition demo_interview : pystr :=
  join nl
    [ utf8 "";
      utf8 "        **🎯 Interview Preparation Plan**";
      utf8 "        ";
      utf8 "        **📚 Technical Preparation (2 weeks):**";
      utf8 "        ";
      utf8 "        **Week 1: Core Concepts**";
      utf8 "        - Data Structures & Algorithms (2 hours/day)";
      utf8 "        - System Design fundamentals (1 hour/day)";
      utf8 "        - Database concepts (1 hour/day)";
      utf8 "        ";
      utf8 "        **Week 2: Advanced Topics**";
      utf8 "        - Cloud architecture patterns (2 hours/day)";
      utf8 "        - Security best practices (1 hour/day)";
      utf8 "        - Scalability concepts (1 hour/day)";
      utf8 "        ";
      utf8 "        **🗣️ Behavioral Questions (1 week):**";
      utf8 "        ";
      utf8 "        **Key Areas to Prepare:**";
      utf8 "        - Leadership experiences";
      utf8 "        - Conflict resolution";
      utf8 "        - Project failures and learnings";
      utf8 "        - Team collaboration challenges";
      utf8 "        ";
      utf8 "        **STAR Method Examples:**";
      utf8 "        - **Situation:** Describe the context";
      utf8 "        - **Task:** Explain your responsibility";
      utf8 "        - **Action:** Detail what you did";
      utf8 "        - **Result:** Quantify the outcome";
      utf8 "        ";
      utf8 "        **💻 Mock Interviews:**";
      utf8 "        - Schedule 3-5 mock interviews";
      utf8 "        - Practice with peers or online platforms";
      utf8 "        - Record and review your performance";
      utf8 "        - Focus on communication clarity";
      utf8 "        ";
      utf8 "        **📱 Day Before Interview:**";
      utf8 "        - Review your resume and projects";
      utf8 "        - Prepare questions for the interviewer";
      utf8 "        - Get good sleep and relax";
      utf8 "        - Test your technical setup (if remote)";
      utf8 "        " ].

Definition demo_advice : pystr :=
  join nl
    [ utf8 "";
      utf8 "        **💬 Personalized Career Advice**";
      utf8 "        ";
      utf8 "        **🎯 Immediate Action Items (Next 30 Days):**";
      utf8 "        ";
      utf8 "        **1. Skill Enhancement:**";
      utf8 "        - Start AWS Cloud Practitioner certification";
      utf8 "        - Build 2 new portfolio projects";
      utf8 "        - Contribute to an open-source project";
      utf8 "        ";
      utf8 "        **2. Networking Strategy:**";
      utf8 "        - Join 3 tech communities (Discord/Slack)";
      utf8 "        - Attend 2 virtual tech meetups";
      utf8 "        - Connect with 5 industry professionals on LinkedIn";
      utf8 "        ";
      utf8 "        **3. Personal Branding:**";
      utf8 "        - Update LinkedIn profile with achievements";
      utf8 "        - Start a technical blog (1 post/week)";
      utf8 "        - Create GitHub portfolio with 5+ projects";
      utf8 "        ";
      utf8 "        **📈 3-Month Goals:**";
      utf8 "        - Complete AWS certification";
      utf8 "        - Apply to 20+ target companies";
      utf8 "        - Secure 3-5 interviews";
      utf8 "        - Negotiate 20%+ salary increase";
      utf8 "        ";
      utf8 "        **🚀 Long-term Vision (6-12 months):**";
      utf8 "        - Target Senior Developer role";
      utf8 "        - Build technical leadership skills";
      utf8 "        - Explore tech entrepreneurship";
      utf8 "        - Consider graduate education if relevant";
      utf8 "        ";
      utf8 "        **📊 Success Metrics:**";
      utf8 "        - Technical: 2 certifications, 5 portfolio projects";
      utf8 "        - Career: 50%+ salary growth, senior position";
      utf8 "        - Network: 100+ professional connections";
      utf8 "        - Brand: 1000+ LinkedIn followers, 50+ blog readers";
      utf8 "        ";
      utf8 "        **🔄 Monthly Review:**";
      utf8 "        - Track skill progress";
      utf8 "        - Update resume with new achievements";
      utf8 "        - Adjust strategy based on market feedback";
      utf8 "        - Celebrate small wins and learn from setbacks";
      utf8 "        " ].

(** What [client.chat.completions.create(...)] followed by
    [.choices[0].message.content] gives: the text, or an exception, of which
    the code only reads [str(e)]. *)
Inductive Outcome :=
| Reply (content : pystr)
| Failure (error_msg : pystr).

(** The arguments of one completion call, with the key of the client that
    sends it; the temperature is absent when the call does not pass one. *)
Record ChatCall := {
  call_key : pystr;
  call_model : pystr;
  call_messages : list (pystr * pystr);
  call_max_tokens : Z;
  call_temperature : option Qc
}.

(** What the check of [st.session_state.demo_mode] comes to: set, not set,
    or an exception, which [ask_groq] prints and passes over. *)
Inductive DemoCheck := DemoOn | DemoOff | DemoCheckFails.

Section WithService.
Variable G : Type.
Variable groq_create : ChatCall -> G -> Outcome * G.
(** [str.lower] of the runtime. *)
Variable lower : pystr -> pystr.

(** The module global [client], the service, and the calls sent to it. *)
Record State := {
  client : option pystr;
  service : G;
  calls : list ChatCall
}.

Definition set_client (c : option pystr) (st : State) : State :=
  {| client := c; service := service st; calls := calls st |}.

Definition send (call : ChatCall) (st : State) : Outcome * State :=
  let '(out, g') := groq_create call (service st) in
  (out, {| client := client st; service := g';
           calls := calls st ++ [call] |}).

Definition default_model : pystr := lit "llama-3.1-8b-instant".

(** [api_key.startswith('gsk_')] *)
Definition startswith (s p : pystr) : bool := bool_decide (p `prefix_of` s).

(** The request that tests a key. *)
Definition test_call (key : pystr) : ChatCall :=
  {| call_key := key; call_model := default_model;
     call_messages := [(lit "user", lit "test")];
     call_max_tokens := 1; call_temperature := None |}.

(** The end of [initialize_groq_client], once [client] is assigned. *)
Definition test_client (key : pystr) (st : State) : bool * State :=
  let st := set_client (Some key) st in
  match send (test_call key) st with
  | (Reply _, st') => (true, st')
  | (Failure _, st') => (false, set_client None st')
  end.

(** [initialize_groq_client(api_key)]; [env_key] is the module constant
    [GROQ_API_KEY]. *)
Definition initialize_groq_client (env_key api_key : option pystr)
    (st : State) : bool * State :=
  match api_key with
  | Some (c :: k) =>
      let api_key := c :: k in
      if negb (startswith api_key (lit "gsk_"))
         || (length api_key <? 50)%nat
      then (false, st)
      else test_client api_key st
  | _ =>
      match env_key with
      | Some (c :: k) => test_client (c :: k) st
      | _ => (false, set_client None st)
      end
  end.

Definition get_demo_response (prompt : pystr) : pystr :=
  let prompt_lower := lower prompt in
  if contains (lit "summary") prompt_lower
     || contains (lit "highlighting skills") prompt_lower
  then demo_summary
  else if contains (lit "skill gap") prompt_lower
          || contains (lit "missing certifications") prompt_lower
  then demo_skill_gap
  else if contains (lit "roadmap") prompt_lower
          || contains (lit "6-month") prompt_lower
          || contains (lit "1-year") prompt_lower
  then demo_roadmap
  else if contains (lit "plan") prompt_lower
          && contains (lit "learn") prompt_lower
  then demo_learning_plan
  else if contains (lit "salary") prompt_lower
          || contains (lit "expectation") prompt_lower
  then demo_salary
  else if contains (lit "interview") prompt_lower
          || contains (lit "prepare") prompt_lower
  then demo_interview
  else demo_advice.

(** The text returned for an exception of the call. *)
Definition error_reply (error_msg : pystr) : pystr :=
  if contains (lit "401") error_msg
     || contains (lit "invalid_api_key") error_msg
  then invalid_api_key
  else utf8 "❌ **API Error**: " ++ error_msg.

(** [ask_groq(prompt, model_name, max_tokens, temperature)] *)
Definition ask_groq (demo : DemoCheck) (prompt model_name : pystr)
    (max_tokens : Z) (temperature : Qc) (st : State) : pystr * State :=
  match demo with
  | DemoOn => (get_demo_response prompt, st)
  | _ =>
      match client st with
      | None => (api_key_required, st)
      | Some key =>
          let call :=
            {| call_key := key; call_model := model_name;
               call_messages := [(lit "user", prompt)];
               call_max_tokens := max_tokens;
               call_temperature := Some temperature |} in
          match send call st with
          | (Reply content, st') => (strip content, st')
          | (Failure error_msg, st') => (error_reply error_msg, st')
          end
      end
  end.

End WithService.

Arguments client {G} s.
Arguments service {G} s.
Arguments calls {G} s.
Arguments Build_State {G} client service calls.
Arguments set_client {G}.
Arguments send {G}.
Arguments test_client {G}.
Arguments initialize_groq_client {G}.
Arguments ask_groq {G}.

End Helper.

(** A key the format check of [initialize_groq_client] lets through. *)
Definition well_formed_key (key : pystr) : bool :=
  Helper.startswith key (lit "gsk_") && (50 <=? length key)%nat.

(** ** Job search client ([src/job_api.py]) *)

Module JobApi.

(** A value returned by [json.loads]; an object keeps its fields in order,
    each key once. *)
#[local] Unset Elimination Schemes.
Inductive Json :=
| JNull
| JBool (b : bool)
| JNumber (text : pystr)
| JString (s : pystr)
| JArray (items : list Json)
| JObject (fields : list (pystr * Json)).
#[local] Set Elimination Schemes.

(** [l[:n]] for any integer [n]: a negative stop counts from the end. *)
Definition slice_upto {A} (n : Z) (l : list A) : list A :=
  let len := Z.of_nat (length l) in
  let stop := if (n <? 0)%Z then Z.max 0 (len + n) else Z.min n len in
  take (Z.to_nat stop) l.

(** [v[:rows]]: lists and strings can be sliced; for any other value the
    subscript raises. *)
Definition json_slice (rows : Z) (v : Json) : option Json :=
  match v with
  | JArray items => Some (JArray (slice_upto rows items))
  | JString s => Some (JString (slice_upto rows s))
  | _ => None
  end.

(** The selection made inside the [try]; [None] when it raises. *)
Definition select_jobs (jobs_data : Json) (rows : Z) : option Json :=
  match jobs_data with
  | JObject fields =>
      match Demand.dict_get fields (lit "data") with
      | Some v => json_slice rows v
      | None =>
          match Demand.dict_get fields (lit "jobs") with
          | Some v => json_slice rows v
          | None => Some (JArray [])
          end
      end
  | JArray items => Some (JArray (slice_upto rows items))
  | _ => Some (JArray [])
  end.

(** UTF-8 encoding of one code point; the surrogates cannot be encoded. *)
Definition utf8_encode_char (c : N) : option (list N) :=
  if c <? 128 then Some [c]
  else if c <? 2048 then Some [192 + c / 64; 128 + c mod 64]
  else if (55296 <=? c) && (c <=? 57343) then None
  else if c <? 65536 then
    Some [224 + c / 4096; 128 + (c / 64) mod 64; 128 + c mod 64]
  else
    Some [240 + c / 262144; 128 + (c / 4096) mod 64;
          128 + (c / 64) mod 64; 128 + c mod 64].

Fixpoint utf8_encode (s : pystr) : option (list N) :=
  match s with
  | [] => Some []
  | c :: s' =>
      match utf8_encode_char c, utf8_encode s' with
      | Some bs, Some rest => Some (bs ++ rest)
      | _, _ => None
      end
  end.

(** The characters [quote] never escapes: letters, digits and [_.-~]. *)
Definition always_safe (b : N) : bool :=
  ((65 <=? b) && (b <=? 90)) || ((97 <=? b) && (b <=? 122))
  || ((48 <=? b) && (b <=? 57))
  || (b =? 95) || (b =? 46) || (b =? 45) || (b =? 126).

Definition hex_digit (n : N) : N := if n <? 10 then 48 + n else 55 + n.

Definition quote_byte (b : N) : pystr :=
  if always_safe b || (b =? 47) then [b]
  else [37; hex_digit (b / 16); hex_digit (b mod 16)].

(** [urllib.parse.quote(s)]; [None] stands for [UnicodeEncodeError]. *)
Definition quote (s : pystr) : option pystr :=
  match utf8_encode s with
  | Some bytes => Some (bytes ≫= quote_byte)
  | None => None
  end.

Definition host : pystr := lit "jobs-api14.p.rapidapi.com".

Definition build_url (encoded_query location : pystr) : pystr :=
  lit "/v2/linkedin/search?query=" ++ encoded_query
  ++ lit "&experienceLevels=intern%3Bentry%3Bassociate%3BmidSenior%3Bdirector&workplaceTypes=remote%3Bhybrid%3BonSite&location="
  ++ location
  ++ lit "&datePosted=month&employmentTypes=contractor%3Bfulltime%3Bparttime%3Bintern%3Btemporary".

Inductive NetEvent :=
| Connect (host : pystr)
| Request (method url : pystr) (headers : list (pystr * pystr))
| Close.

(** What the call gives its caller. *)
Inductive Outcome :=
| Returns (jobs : Json)
| RaisesUnicodeEncodeError.

Section WithNetwork.
Variable G : Type.
(** The request, the reading and decoding of the response and
    [json.loads]: the parsed body, or [None] when any of them raises. *)
Variable exchange : pystr -> list (pystr * pystr) -> G -> option Json * G.
(** The key written in the source for the header [x-rapidapi-key]. *)
Variable rapidapi_key : pystr.

Record Net := {
  remote : G;
  events : list NetEvent
}.

Definition record (ev : NetEvent) (net : Net) : Net :=
  {| remote := remote net; events := events net ++ [ev] |}.

Definition headers : list (pystr * pystr) :=
  [(lit "x-rapidapi-key", rapidapi_key); (lit "x-rapidapi-host", host)].

Definition fetch_linkedin_jobs (search_query location : pystr) (rows : Z)
    (net : Net) : Outcome * Net :=
  let net := record (Connect host) net in
  match quote search_query with
  | None => (RaisesUnicodeEncodeError, net)
  | Some encoded_query =>
      let url := build_url encoded_query location in
      let '(body, g') := exchange url headers (remote net) in
      let net :=
        record (Request (lit "GET") url headers)
          {| remote := g'; events := events net |} in
      let jobs :=
        match body with
        | Some jobs_data =>
            match select_jobs jobs_data rows with
            | Some jobs => jobs
            | None => JArray []
            end
        | None => JArray []
        end in
      (Returns jobs, record Close net)
  end.

End WithNetwork.

Arguments remote {G} n.
Arguments events {G} n.
Arguments Build_Net {G} remote events.
Arguments record {G}.
Arguments fetch_linkedin_jobs {G}.

End JobApi.

(** A character that [quote] may produce. *)
Definition url_safe (c : N) : bool :=
  JobApi.always_safe c || (c =? 47) || (c =? 37).

Definition is_surrogate (c : N) : bool := (55296 <=? c) && (c <=? 57343).

(** Number of items of a list, of characters of a string. *)
Definition json_size (v : JobApi.Json) : option nat :=
  match v with
  | JobApi.JArray items => Some (length items)
  | JobApi.JString s => Some (length s)
  | _ => None
  end.

Module Runs.

(** A key that passes the format check: [gsk_] and 46 more characters. *)
Definition good_key : pystr :=
  lit "gsk_0123456789abcdefghijklmnopqrstuvwxyzABCDEFGHIJ".

(** A completion endpoint that answers a given number of calls, then fails
    with an authentication error. *)
Definition counted_service (call : Helper.ChatCall) (left : nat)
  : Helper.Outcome * nat :=
  match left with
  | O => (Helper.Failure (lit "Error code: 401 - invalid_api_key"), O)
  | S left' => (Helper.Reply (lit " Hello. "), left')
  end.

Definition helper_state (client : option pystr) (left : nat)
  : Helper.State nat :=
  {| Helper.client := client; Helper.service := left; Helper.calls := [] |}.

(** A body with a [data] field that is not a list and a [jobs] field. *)
Definition odd_body : JobApi.Json :=
  JobApi.JObject
    [(lit "data", JobApi.JNull);
     (lit "jobs", JobApi.JArray [JobApi.JString (lit "Backend Engineer")])].

Definition odd_exchange (url : pystr) (headers : list (pystr * pystr))
    (g : unit) : option JobApi.Json * unit :=
  (Some odd_body, g).

Definition offline : JobApi.Net unit :=
  {| JobApi.remote := tt; JobApi.events := [] |}.

End Runs.

(** The distinct items of a list, in order of first appearance. *)
Definition first_appearances (items : list pystr) : list pystr :=
  foldl (fun seen x => if bool_decide (x ∈ seen) then seen else seen ++ [x])
    [] items.

(** The entries of a report that have the count [c]. *)
Definition with_count (c : nat) (entries : list (pystr * nat))
  : list (pystr * nat) :=
  List.filter (fun e => (e.2 =? c)%nat) entries.

(** * Properties *)

(** ** Skills helper *)

Section SkillsFacts.
Import Skills.
Variable lower : pystr -> pystr.

Let keep (skill : pystr) : bool := truthy (strip skill).

Lemma strip_nil : strip [] = [].
Proof. reflexivity. Qed.

Lemma filter_map_commute {A B} (p : B -> bool) (f : A -> B) (l : list A) :
  List.filter p (f <$> l) = f <$> List.filter (fun x => p (f x)) l.
Proof.
  induction l as [|x l IH]; simpl; [reflexivity|].
  destruct (p (f x)); simpl; [f_equal|]; exact IH.
Qed.

(** Cutting at runs and cutting at every separator agree on the piece under
    construction and, once the blank pieces are dropped, on all the others. *)
Lemma split_runs_each (s : pystr) :
  (exists h t1 t2,
      re_split_runs false s = h :: t1 /\ split_each s = h :: t2
      /\ List.filter keep t1 = List.filter keep t2)
  /\ List.filter keep (re_split_runs true s) = List.filter keep (split_each s).
Proof.
  induction s as [|c s [(h & t1 & t2 & H1 & H2 & Ht) Hrun]]; simpl.
  - split; [by exists [], [], [] | reflexivity].
  - destruct (is_sep c) eqn:Hc.
    + split.
      * exists [], (re_split_runs true s), (split_each s). by rewrite Hrun.
      * simpl. fold (keep []). by rewrite Hrun.
    + rewrite H1, H2. simpl. split.
      * by exists (c :: h), t1, t2.
      * by rewrite Ht.
Qed.

Lemma re_split_each (s : pystr) :
  List.filter keep (re_split s) = List.filter keep (split_each s).
Proof.
  destruct (split_runs_each s) as [(h & t1 & t2 & H1 & H2 & Ht) _].
  unfold re_split. rewrite H1, H2. simpl. by rewrite Ht.
Qed.

(** C8. For every skills string [s] the helper returns the tokens obtained
    by cutting [s] at each of the separators [|], [,] and [;], trimming each
    token, dropping those that are empty after trimming and lower-casing the
    remaining ones, in the order in which they occur in [s]; for a missing
    (NaN) input it returns the empty list. *)
Theorem extract_skills_refines_spec (s : pystr) :
  _extract_skills lower (CVal s) = extract_skills_spec lower s
  /\ _extract_skills lower CNaN = [].
Proof.
  split; [|reflexivity].
  unfold _extract_skills, extract_skills_spec. simpl.
  fold keep. rewrite re_split_each, filter_map_commute.
  by rewrite <- list_fmap_compose.
Qed.

End SkillsFacts.

Example extract_skills_run :
  Skills._extract_skills Skills.lower_ascii
    (CVal (lit " Python | SQL,,; ;aws , python"))
  = [lit "python"; lit "sql"; lit "aws"; lit "python"].
Proof. vm_compute. reflexivity. Qed.

Example re_split_run :
  Skills.re_split (lit ",a;;b|") = [lit ""; lit "a"; lit "b"; lit ""].
Proof. vm_compute. reflexivity. Qed.

(** ** Retrieval *)

Section RetrievalFacts.
Import RAG.
Context {G : Type}.
Variable index_query : list Entry -> list pystr -> Z -> result QueryResults.

Lemma collect_jobs_ok results i metadatas acc jobs :
  collect_jobs results i metadatas acc = Ok jobs ->
  forall k job, jobs !! k = Some job ->
    (k < length acc)%nat /\ acc !! k = Some job
    \/ exists md d,
         (length acc <= k)%nat
         /\ metadatas !! (k - length acc)%nat = Some md
         /\ distance_at results (i + (k - length acc)) = Some d
         /\ job = job_of md d.
Proof.
  revert i acc. induction metadatas as [|md rest IH]; intros i acc; simpl.
  - intros [= <-] k job Hk. left. split; [by eapply lookup_lt_Some|done].
  - unfold item at 1.
    destruct (qr_distances results !! 0%nat) as [ds|] eqn:Hds; [|done].
    unfold item. destruct (ds !! i) as [d|] eqn:Hd; [|done].
    intros Hrec k job Hk.
    destruct (IH _ _ Hrec k job Hk) as [[Hlt Hin]|(md' & d' & Hle & Hmd & Hdist & ->)].
    + rewrite length_app in Hlt. simpl in Hlt.
      destruct (decide (k < length acc)%nat) as [Hk'|Hk'].
      * left. split; [done|]. by rewrite lookup_app_l in Hin.
      * right. assert (k = length acc) as -> by lia.
        rewrite lookup_app_r, Nat.sub_diag in Hin by lia.
        injection Hin as <-. exists md, d.
        rewrite Nat.sub_diag, Nat.add_0_r. unfold distance_at.
        rewrite Hds. simpl. by rewrite Hd.
    + rewrite length_app in *. simpl in *. right. exists md', d'.
      split; [lia|]. split.
      * replace (k - length acc)%nat with (S (k - (length acc + 1)))%nat by lia.
        done.
      * split; [|done].
        replace (i + (k - length acc))%nat
          with (S i + (k - (length acc + 1)))%nat by lia.
        done.
Qed.

(** What a successful search has done: one query on the collection of
    [self], and one job per reported neighbour. *)
Lemma search_ok self query n_results (w w' : World G) jobs :
  search_relevant_jobs index_query self query n_results w = (Ok jobs, w') ->
  exists c coll results,
    collection self = Some c /\ chroma w !! c = Some coll
    /\ index_query (coll_entries coll) [query] n_results = Ok results
    /\ w' = log (EvQuery c [query] n_results) w
    /\ forall k job, jobs !! k = Some job ->
         exists md d, distance_at results k = Some d /\ job = job_of md d.
Proof.
  unfold search_relevant_jobs, bind, collection_query, lift, ret, raise.
  destruct (collection self) as [c|]; [|done].
  destruct (chroma w !! c) as [coll|] eqn:Hc; [|done].
  destruct (index_query _ _ _) as [results|] eqn:Hq; [|done].
  intros [= Hjobs <-]. exists c, coll, results. repeat split; try done.
  intros k job Hk. unfold jobs_of_results in Hjobs.
  destruct (item _ _) as [mds|]; [|done].
  destruct (collect_jobs_ok _ _ _ _ _ Hjobs k job Hk)
    as [[Hlt _]|(md & d & _ & _ & Hd & ->)]; [simpl in Hlt; lia|].
  simpl in Hd. rewrite Nat.sub_0_r in Hd. by exists md, d.
Qed.


Lemma one_minus_antitone (d e : Qc) : (d <= e)%Qc -> (1 - e <= 1 - d)%Qc.
Proof.
  unfold Qcle, Qcminus, Qcplus, Qcopp. simpl. rewrite !Qred_correct. lra.
Qed.

Lemma one_minus_unit_interval (d : Qc) :
  in_unit_interval (1 - d)%Qc <-> in_unit_interval d.
Proof.
  unfold in_unit_interval, Qcle, Qcminus, Qcplus, Qcopp. simpl.
  rewrite !Qred_correct. lra.
Qed.


(** C3. When the index reports its neighbours in ascending order of
    distance, the list returned by [search_relevant_jobs] has non-increasing
    [relevance_score]: for positions i < j the score at i is at least the
    score at j. *)
Theorem relevance_score_non_increasing self query n_results
    (w w' : World G) jobs c coll results ds :
  collection self = Some c ->
  chroma w !! c = Some coll ->
  index_query (coll_entries coll) [query] n_results = Ok results ->
  qr_distances results !! 0%nat = Some ds ->
  ascending ds ->
  search_relevant_jobs index_query self query n_results w = (Ok jobs, w') ->
  non_increasing jobs.
Proof.
  intros Hc Hcoll Hq Hds Hasc Hrun i j ji jj Hij Hi Hj.
  destruct (search_ok _ _ _ _ _ _ Hrun)
    as (c' & coll' & results' & Hc' & Hcoll' & Hq' & _ & Hjobs).
  assert (c' = c) as -> by congruence.
  assert (coll' = coll) as -> by congruence.
  assert (results' = results) as -> by congruence.
  destruct (Hjobs i ji Hi) as (mi & di & Hdi & ->).
  destruct (Hjobs j jj Hj) as (mj & dj & Hdj & ->).
  unfold distance_at in Hdi, Hdj. rewrite Hds in Hdi, Hdj. simpl in *.
  apply one_minus_antitone. by eapply Hasc.
Qed.

(** C6 (amended). [search_relevant_jobs] hands [query_text] to the index as
    it is: the one query it issues carries the untrimmed text, so searching
    with a text and with its trimmed form issue the same index query exactly
    when the text has no leading or trailing whitespace. *)
Theorem search_passes_query_verbatim self query n_results (w : World G) c :
  collection self = Some c ->
  trace (search_relevant_jobs index_query self query n_results w).2
  = trace w ++ [EvQuery c [query] n_results]
  /\ (trace (search_relevant_jobs index_query self query n_results w).2
      = trace (search_relevant_jobs index_query self (strip query) n_results w).2
      <-> strip query = query).
Proof.
  intros Hc.
  assert (forall q,
    trace (search_relevant_jobs index_query self q n_results w).2
    = trace w ++ [EvQuery c [q] n_results]) as Htrace.
  { intros q.
    unfold search_relevant_jobs, bind, collection_query, lift, ret.
    rewrite Hc. destruct (chroma w !! c); [|done].
    by destruct (index_query _ _ _). }
  split; [apply Htrace|]. rewrite !Htrace. split.
  - intros H. apply app_inv_head in H. by injection H.
  - by intros ->.
Qed.

End RetrievalFacts.



Lemma demo_distances_ascending : ascending [Q2Qc (1 # 4); Q2Qc 2].
Proof.
  intros i j di dj Hij Hi Hj.
  destruct i as [|[|i]], j as [|[|j]]; simpl in *; try lia; try done.
  injection Hi as <-. injection Hj as <-. by vm_compute.
Qed.

Lemma relevance_score_non_increasing_witness :
  non_increasing
    [RAG.job_of Demo.backend (Q2Qc (1 # 4)); RAG.job_of Demo.frontend (Q2Qc 2)].
Proof.
  apply (relevance_score_non_increasing Demo.two_neighbours Demo.engine
           (lit "python") 2 Demo.world
           (RAG.log (EvQuery job_database [lit "python"] 2) Demo.world)
           _ job_database
           {| coll_description :=
                lit "Job listings with skills and requirements";
              coll_entries := Demo.stored |}
           {| qr_metadatas := [e_metadata <$> Demo.stored];
              qr_distances := [[Q2Qc (1 # 4); Q2Qc 2]] |}
           [Q2Qc (1 # 4); Q2Qc 2]).
  - reflexivity.
  - reflexivity.
  - reflexivity.
  - reflexivity.
  - exact demo_distances_ascending.
  - reflexivity.
Defined.

(** C6, the claim as worded: a query with a leading blank reaches the index
    with its blank, its trimmed form without. *)
Lemma search_does_not_trim :
  RAG.trace (RAG.search_relevant_jobs Demo.two_neighbours Demo.engine
               (lit " python") 5 Demo.world).2
  <> RAG.trace (RAG.search_relevant_jobs Demo.two_neighbours Demo.engine
                  (strip (lit " python")) 5 Demo.world).2.
Proof. vm_compute. discriminate. Qed.

Lemma search_passes_query_verbatim_witness :
  RAG.trace (RAG.search_relevant_jobs Demo.two_neighbours Demo.engine
               (lit " python") 5 Demo.world).2
  = [EvQuery job_database [lit " python"] 5].
Proof.
  apply (search_passes_query_verbatim Demo.two_neighbours Demo.engine
           (lit " python") 5 Demo.world job_database).
  reflexivity.
Defined.

(** ** Insight composer *)

Lemma slice_from_minus_five {A} (l : list A) :
  slice_from (-5) l = drop (length l - 5) l.
Proof.
  unfold slice_from. cbv zeta. change (-5 <? 0)%Z with true. cbv iota.
  f_equal. lia.
Qed.

Lemma slice_from_last_five {A} (older recent : list A) :
  length recent = 5%nat -> slice_from (-5) (older ++ recent) = recent.
Proof.
  intros Hlen. rewrite slice_from_minus_five, length_app, Hlen.
  replace (length older + 5 - 5)%nat with (length older) by lia.
  apply drop_app_length.
Qed.

Lemma slice_from_short {A} (history : list A) :
  (length history <= 5)%nat -> slice_from (-5) history = history.
Proof.
  intros Hlen. rewrite slice_from_minus_five.
  replace (length history - 5)%nat with 0%nat by lia.
  apply drop_0.
Qed.

Section ComposerFacts.
Import RAG.
Context {G : Type}.
Variable groq_create : pystr -> ChatRequest -> G -> result pystr * G.
Variable index_query : list Entry -> list pystr -> Z -> result QueryResults.



(** C1 (amended). A failure of the generation service inside
    [get_career_insights] is raised to the caller, and no dict is returned.
    When the first call fails nothing else has been done; when the second
    call fails the jobs already retrieved are lost with it. *)
Theorem generation_failure_propagates self key resume_text user_query
    (w : World G) e :
  client_groq self = Some key ->
  (forall g',
      groq_create key (skills_request resume_text) (service w) = (Raise e, g') ->
      get_career_insights groq_create index_query self resume_text user_query w
      = (Raise e,
         log (EvCompletion (skills_request resume_text)) (set_service g' w)))
  /\ (forall content g1 jobs w2 g3,
        groq_create key (skills_request resume_text) (service w)
        = (Ok content, g1) ->
        search_relevant_jobs index_query self
          (strip content ++ lit " " ++ or_else user_query []) 15
          (log (EvCompletion (skills_request resume_text)) (set_service g1 w))
        = (Ok jobs, w2) ->
        groq_create key (insights_request content jobs user_query) (service w2)
        = (Raise e, g3) ->
        get_career_insights groq_create index_query self resume_text
          user_query w
        = (Raise e,
           log (EvCompletion (insights_request content jobs user_query))
             (set_service g3 w2))).
Proof.
  intros Hkey. split.
  - intros g' Hfirst.
    unfold get_career_insights, bind, chat_completions_create.
    rewrite Hkey. fold (skills_request resume_text). by rewrite Hfirst.
  - intros content g1 jobs w2 g3 Hfirst Hsearch Hsecond.
    unfold get_career_insights, bind, chat_completions_create.
    rewrite Hkey. fold (skills_request resume_text). rewrite Hfirst.
    rewrite Hsearch. fold (insights_request content jobs user_query).
    by rewrite Hsecond.
Qed.

Lemma initialize_set_client read_csv self client (w : World G) :
  _initialize_vector_store read_csv (set_client_groq self client) w
  = let '(r, w') := _initialize_vector_store read_csv self w in
    (map_result (fun s => set_client_groq s client) r, w').
Proof.
  unfold _initialize_vector_store, try_except, bind, get_collection, ret.
  destruct (chroma w !! job_database); [done|].
  unfold _create_vector_store, bind, lift, ret. simpl.
  destruct (Loader._load_multiple_files _ _) as [df|]; [|done].
  destruct (create_collection _ _ _) as [[coll|] w1]; [|done].
  by destruct (for_each _ _ _) as [[[]|] w2].
Qed.

(** C10. Without an API key (the variable unset or empty) the constructor
    succeeds wherever it succeeds with a key, and leaves the generation
    client at [None]; every later call to [get_career_insights], and so to
    [chat_with_career_advisor], raises the [AttributeError] of the [None]
    dereference: no descriptive string is returned. *)
Theorem missing_api_key_raises read_csv sources api_key (w : World G) :
  api_key = None \/ api_key = Some [] ->
  (forall key,
      is_ok (__init__ read_csv sources api_key w).1
      = is_ok (__init__ read_csv sources (Some key) w).1)
  /\ forall self w',
       __init__ read_csv sources api_key w = (Ok self, w') ->
       client_groq self = None
       /\ forall resume_text user_query chat_history user_message w2,
            get_career_insights groq_create index_query self resume_text
              user_query w2
            = (Raise none_has_no_chat, w2)
            /\ chat_with_career_advisor groq_create index_query self
                 resume_text chat_history user_message w2
               = (Raise none_has_no_chat, w2).
Proof.
  intros Hkey.
  set (src := match sources with
              | Some l => l
              | None => [lit "data/jobs.csv"]
              end).
  set (self0 := {| data_sources := src; collection := None;
                   jobs_df := None; client_groq := None |}).
  assert (forall k, __init__ read_csv sources k w
            = _initialize_vector_store read_csv
                (set_client_groq self0
                   match k with Some (c :: r) => Some (c :: r) | _ => None end)
                w) as Hinit by done.
  assert (__init__ read_csv sources api_key w
          = _initialize_vector_store read_csv (set_client_groq self0 None) w)
    as Hnone by (rewrite Hinit; by destruct Hkey as [-> | ->]).
  split.
  - intros key. rewrite Hnone, Hinit, !initialize_set_client.
    by destruct (_initialize_vector_store read_csv self0 w) as [[?|?] ?].
  - intros self w'. rewrite Hnone, initialize_set_client.
    destruct (_initialize_vector_store read_csv self0 w) as [[s|?] w1];
      [|done].
    intros [= <- <-]. split; [done|].
    intros resume_text user_query chat_history user_message w2.
    split; [done|].
    by unfold chat_with_career_advisor, bind, get_career_insights,
      chat_completions_create.
Qed.

End ComposerFacts.

(** C1, the claim as worded: with the generation service unreachable the
    call raises; it raises as well when the service goes down between the
    two calls, after the retrieval. *)
Lemma unreachable_service_raises :
  ~ (exists d : Insights,
       (RAG.get_career_insights Demo.flaky_service Demo.two_neighbours
          Demo.keyed_engine Demo.resume None (Demo.world_with 0%nat)).1
       = Ok d)
  /\ ~ (exists d : Insights,
         (RAG.get_career_insights Demo.flaky_service Demo.two_neighbours
            Demo.keyed_engine Demo.resume None (Demo.world_with 1%nat)).1
         = Ok d).
Proof. split; intros [d Hd]; vm_compute in Hd; discriminate Hd. Qed.

Lemma generation_failure_propagates_witness :
  (RAG.get_career_insights Demo.flaky_service Demo.two_neighbours
     Demo.keyed_engine Demo.resume None (Demo.world_with 0%nat)).1
  = Raise (ServiceError (lit "Connection error."))
  /\ (RAG.get_career_insights Demo.flaky_service Demo.two_neighbours
        Demo.keyed_engine Demo.resume None (Demo.world_with 1%nat)).1
     = Raise (ServiceError (lit "Connection error.")).
Proof.
  split.
  - rewrite (proj1 (generation_failure_propagates Demo.flaky_service
                      Demo.two_neighbours Demo.keyed_engine (lit "gsk_demo")
                      Demo.resume None (Demo.world_with 0%nat)
                      (ServiceError (lit "Connection error.")) eq_refl)
               0%nat eq_refl).
    reflexivity.
  - erewrite (proj2 (generation_failure_propagates Demo.flaky_service
                       Demo.two_neighbours Demo.keyed_engine (lit "gsk_demo")
                       Demo.resume None (Demo.world_with 1%nat)
                       (ServiceError (lit "Connection error.")) eq_refl)
                (lit "Skills: python, django ") 0%nat _ _ 0%nat);
      reflexivity.
Defined.


Lemma missing_api_key_raises_witness :
  (RAG.__init__ Demo.no_files None None Demo.world).1
  = Ok Demo.engine
  /\ (RAG.get_career_insights Demo.flaky_service Demo.two_neighbours
        Demo.engine Demo.resume None (Demo.world_with 3%nat)).1
     = Raise none_has_no_chat.
Proof.
  split; [reflexivity|].
  pose proof (proj2 (missing_api_key_raises Demo.flaky_service
                       Demo.two_neighbours Demo.no_files None None
                       (Demo.world_with 3%nat) (or_introl eq_refl))
                Demo.engine _ eq_refl) as [_ H].
  by rewrite (proj1 (H Demo.resume None [] [] (Demo.world_with 3%nat))).
Defined.

(** ** Dataset loader *)

Section LoaderFacts.
Import Loader.
Variable read_csv : pystr -> Encoding -> result DataFrame.

Lemma load_one_loadable file_path :
  load_one read_csv file_path = None <-> loadable read_csv file_path = false.
Proof.
  unfold load_one, loadable, read_with_fallback.
  destruct (endswith _ _); simpl; [|done].
  destruct (read_csv file_path Utf8) as [df|[]]; simpl; try done.
  by destruct (read_csv file_path Latin1).
Qed.

Lemma foldl_load_step acc sources :
  foldl (load_step read_csv) acc sources
  = acc ++ omap (load_one read_csv) sources.
Proof.
  revert acc. induction sources as [|p sources IH]; intros acc; simpl.
  - by rewrite app_nil_r.
  - rewrite IH. unfold load_step. destruct (load_one read_csv p); [|done].
    by rewrite <- app_assoc.
Qed.

Lemma load_multiple_files_eq sources :
  _load_multiple_files read_csv sources
  = match omap (load_one read_csv) sources with
    | [] => Raise no_valid_csv
    | dfs => Ok (pd_concat dfs)
    end.
Proof.
  unfold _load_multiple_files. rewrite foldl_load_step. simpl.
  by destruct (omap _ _).
Qed.

Lemma omap_nil_iff {A B} (f : A -> option B) (l : list A) :
  omap f l = [] <-> forall x, x ∈ l -> f x = None.
Proof.
  induction l as [|x l IH]; simpl.
  - split; [|done]. intros _ x Hx. by apply elem_of_nil in Hx.
  - destruct (f x) eqn:Hfx.
    + split; [done|]. intros H. specialize (H x (list_elem_of_here _ _)).
      congruence.
    + rewrite IH. split.
      * intros H y [->|Hy]%elem_of_cons; auto.
      * intros H y Hy. apply H. by apply list_elem_of_further.
Qed.

Lemma load_raises_iff sources :
  _load_multiple_files read_csv sources = Raise no_valid_csv
  <-> forall p, p ∈ sources -> loadable read_csv p = false.
Proof.
  rewrite load_multiple_files_eq.
  transitivity (omap (load_one read_csv) sources = []).
  - by destruct (omap _ _).
  - rewrite omap_nil_iff. by setoid_rewrite load_one_loadable.
Qed.

Lemma length_concat_rows cols (dfs : list DataFrame) :
  length (dfs ≫= (fun df => reindex cols <$> df_rows df))
  = sum_list (df_len <$> dfs).
Proof.
  induction dfs as [|df dfs IH]; [done|].
  rewrite bind_cons, fmap_cons, length_app, length_fmap, IH. done.
Qed.


End LoaderFacts.


Example load_three_sources :
  df_len <$> (match Loader._load_multiple_files Demo.files
                      [lit "data/jobs.csv"; lit "notes.txt";
                       lit "missing.csv"; lit "data/more.csv"] with
              | Ok df => Some df
              | Raise _ => None
              end)
  = Some 3%nat.
Proof. vm_compute. reflexivity. Qed.

(** ** Building the index *)

Lemma lit_inj : Inj (=) (=) lit.
Proof.
  intros s1 s2 H. unfold lit in H.
  rewrite <- (string_of_list_ascii_of_string s1),
    <- (string_of_list_ascii_of_string s2).
  f_equal. revert H.
  generalize (list_ascii_of_string s1) (list_ascii_of_string s2).
  induction l as [|a l IH]; intros [|b l']; simpl; try done.
  intros [= Hab Hl]. f_equal; [|by apply IH].
  by rewrite <- (ascii_N_embedding a), <- (ascii_N_embedding b), Hab.
Qed.

Lemma str_of_nat_inj : Inj (=) (=) str_of_nat.
Proof.
  intros a b H. apply lit_inj in H.
  assert (Some (Nat.to_uint a) = Some (Nat.to_uint b)) as [= Hu]
    by (by rewrite <- !NilEmpty.usu, H).
  by rewrite <- (Unsigned.of_to a), <- (Unsigned.of_to b), Hu.
Qed.

Lemma job_id_inj : Inj (=) (=) RAG.job_id.
Proof.
  intros a b H. unfold RAG.job_id in H.
  apply app_inv_head in H. by apply str_of_nat_inj.
Qed.

Lemma fmap_bind_list {A B C} (g : B -> C) (f : A -> list B) (l : list A) :
  l ≫= (fun x => g <$> f x) = g <$> (l ≫= f).
Proof.
  induction l as [|x l IH]; [done|].
  by rewrite !bind_cons, fmap_app, IH.
Qed.

(** The batches of the loop cover the rows once, in order. *)
Lemma batches_cover {A} (items : list A) :
  RAG.range_step (length items) RAG.batch_size
    ≫= (fun i => RAG.iloc i (i + RAG.batch_size) items)
  = items.
Proof.
  unfold RAG.range_step, RAG.iloc, RAG.batch_size.
  assert (forall m,
    ((fun k => k * 100)%nat <$> seq 0 m)
      ≫= (fun i => take (i + 100 - i) (drop i items))
    = take (m * 100) items) as Hm.
  { induction m as [|m IH]; [done|].
    rewrite seq_S, fmap_app, bind_app, IH. simpl.
    rewrite app_nil_r.
    replace (m * 100 + 100 - m * 100)%nat with 100%nat by lia.
    rewrite take_take_drop. f_equal. lia. }
  rewrite Hm. apply take_ge.
  pose proof (Nat.div_mod (length items + (100 - 1)) 100).
  pose proof (Nat.mod_upper_bound (length items + (100 - 1)) 100).
  lia.
Qed.

Lemma entries_ids (df : DataFrame) :
  e_id <$> entries_of (RAG.iterrows df) = RAG.job_id <$> seq 0 (df_len df).
Proof.
  unfold entries_of, RAG.iterrows.
  rewrite <- (fst_zip (seq 0 (df_len df)) (df_rows df)) at 2
    by (rewrite length_seq; done).
  rewrite <- !list_fmap_compose. apply list_fmap_ext.
  by intros i [idx row] _.
Qed.

Lemma entries_ids_NoDup (df : DataFrame) :
  NoDup (e_id <$> entries_of (RAG.iterrows df)).
Proof.
  rewrite entries_ids. apply NoDup_fmap_2; [apply job_id_inj|apply NoDup_seq].
Qed.

Lemma entries_length (df : DataFrame) :
  length (entries_of (RAG.iterrows df)) = df_len df.
Proof.
  unfold entries_of, RAG.iterrows.
  rewrite length_fmap, length_zip, length_seq. unfold df_len. lia.
Qed.

Section BuildFacts.
Import RAG.
Context {G : Type}.
Variable read_csv : pystr -> Encoding -> result DataFrame.

Lemma make_entries_batch (batch : list (nat * gmap pystr Cell)) :
  make_entries ((fun '(idx, row) => strip (doc_text row)) <$> batch)
    ((fun '(idx, row) => metadata_of_row row) <$> batch)
    ((fun '(idx, row) => job_id idx) <$> batch)
  = entries_of batch.
Proof.
  unfold make_entries, entries_of.
  induction batch as [|[idx row] batch IH]; [done|].
  rewrite !fmap_cons. simpl. f_equal. exact IH.
Qed.

(** The batch loop appends, to a collection that exists, the records of the
    batches in order, and it does not raise. *)
Lemma for_each_add_batch name df starts (w : World G) c :
  chroma w !! name = Some c ->
  exists w',
    for_each starts (add_batch name df) w = (Ok tt, w')
    /\ chroma w'
       = <[name := {| coll_description := coll_description c;
                      coll_entries :=
                        coll_entries c
                        ++ (starts ≫= fun i =>
                              entries_of
                                (iloc i (i + batch_size) (iterrows df))) |}]>
           (chroma w).
Proof.
  revert w c. induction starts as [|i starts IH]; intros w c Hc.
  - exists w. split; [done|]. simpl. rewrite app_nil_r.
    destruct c. simpl. by rewrite insert_id.
  - cbn [for_each]. unfold bind at 1. unfold add_batch at 1, collection_add.
    rewrite Hc, make_entries_batch.
    match goal with
    | |- context [log ?ev (set_chroma ?st w)] =>
        destruct (IH (log ev (set_chroma st w)) _ (lookup_insert_eq _ _ _))
          as (w' & Hrun & Hst)
    end.
    exists w'. split; [exact Hrun|].
    rewrite Hst. cbn [chroma log set_chroma coll_description coll_entries].
    by rewrite insert_insert_eq, bind_cons, <- app_assoc.
Qed.

Lemma create_vector_store_raises self (w : World G) e :
  Loader._load_multiple_files read_csv (data_sources self) = Raise e ->
  _create_vector_store read_csv self w = (Raise e, w).
Proof.
  intros Hload. unfold _create_vector_store, bind, lift. by rewrite Hload.
Qed.

Lemma create_vector_store_ok self (w : World G) df :
  Loader._load_multiple_files read_csv (data_sources self) = Ok df ->
  chroma w !! job_database = None ->
  exists w',
    _create_vector_store read_csv self w
    = (Ok (set_collection (set_jobs_df self df) job_database), w')
    /\ chroma w'
       = <[job_database :=
             {| coll_description := collection_description;
                coll_entries := entries_of (iterrows df) |}]> (chroma w).
Proof.
  intros Hload Hfree.
  unfold _create_vector_store, bind at 1, lift. rewrite Hload.
  unfold bind at 1, create_collection. rewrite Hfree.
  match goal with
  | |- context [log ?ev (set_chroma ?st w)] =>
      destruct (for_each_add_batch job_database df
                  (range_step (df_len df) batch_size)
                  (log ev (set_chroma st w)) _ (lookup_insert_eq _ _ _))
        as (w' & Hrun & Hst)
  end.
  exists w'. unfold bind, ret. rewrite Hrun. split; [done|].
  rewrite Hst. cbn [chroma log set_chroma coll_description coll_entries].
  rewrite insert_insert_eq, app_nil_l.
  unfold entries_of. rewrite fmap_bind_list.
  replace (df_len df) with (length (iterrows df))
    by (unfold iterrows, df_len; rewrite length_zip, length_seq; lia).
  by rewrite (batches_cover (iterrows df)).
Qed.

(** Initialization when the collection is there: one lookup, nothing else. *)
Lemma initialize_existing self (w : World G) c :
  chroma w !! job_database = Some c ->
  _initialize_vector_store read_csv self w
  = (Ok (set_collection self job_database),
     log (EvGetCollection job_database) w).
Proof.
  intros Hc.
  unfold _initialize_vector_store, try_except, bind, get_collection, ret.
  by rewrite Hc.
Qed.

Lemma initialize_missing self (w : World G) :
  chroma w !! job_database = None ->
  _initialize_vector_store read_csv self w
  = _create_vector_store read_csv self (log (EvGetCollection job_database) w).
Proof.
  intros Hc.
  unfold _initialize_vector_store, try_except, bind, get_collection, ret.
  by rewrite Hc.
Qed.


(** C4. Initialization is idempotent for the collection [job_database]:
    once an initialization has succeeded the collection exists, and a
    further initialization only looks it up; it loads no data, adds no
    record and leaves the store as it was. After a build on a store without
    the collection, the collection holds one record per row of the dataset,
    with pairwise distinct ids, and so it does after the second run. *)
Theorem initialize_twice_reuses_collection self self' (w w1 : World G) built :
  _initialize_vector_store read_csv self w = (Ok built, w1) ->
  exists coll,
    chroma w1 !! job_database = Some coll
    /\ _initialize_vector_store read_csv self' w1
       = (Ok (set_collection self' job_database),
          log (EvGetCollection job_database) w1)
    /\ chroma (_initialize_vector_store read_csv self' w1).2 = chroma w1
    /\ List.filter is_add
         (drop (length (trace w1))
            (trace (_initialize_vector_store read_csv self' w1).2)) = []
    /\ (chroma w !! job_database = None ->
        exists df,
          Loader._load_multiple_files read_csv (data_sources self) = Ok df
          /\ coll_entries coll = entries_of (iterrows df)
          /\ length (coll_entries coll) = df_len df
          /\ NoDup (e_id <$> coll_entries coll)).
Proof.
  intros Hrun.
  assert (exists coll,
            chroma w1 !! job_database = Some coll
            /\ (chroma w !! job_database = None ->
                exists df,
                  Loader._load_multiple_files read_csv (data_sources self)
                  = Ok df
                  /\ coll_entries coll = entries_of (iterrows df)))
    as (coll & Hcoll & Hbuilt).
  { destruct (chroma w !! job_database) as [c|] eqn:Hc.
    - rewrite (initialize_existing _ _ _ Hc) in Hrun.
      injection Hrun as _ <-. by exists c.
    - rewrite (initialize_missing _ _ Hc) in Hrun.
      destruct (Loader._load_multiple_files read_csv (data_sources self))
        as [df|e] eqn:Hload.
      + destruct (create_vector_store_ok self
                    (log (EvGetCollection job_database) w) df Hload Hc)
          as (w' & Hrun' & Hst).
        rewrite Hrun' in Hrun. injection Hrun as _ <-.
        eexists. split; [by rewrite Hst, lookup_insert_eq|].
        intros _. by exists df.
      + by rewrite (create_vector_store_raises _ _ _ Hload) in Hrun. }
  exists coll. split; [done|].
  rewrite (initialize_existing self' w1 coll Hcoll).
  split; [done|]. split; [done|]. split.
  - simpl. by rewrite drop_app_length.
  - intros Hfree. destruct (Hbuilt Hfree) as (df & Hload & Hentries).
    exists df. rewrite Hentries. split; [done|]. split; [done|].
    split; [apply entries_length|apply entries_ids_NoDup].
Qed.

(** C5 (amended). When none of the configured sources can be loaded, the
    build raises and creates no collection. When the sources load, the build
    of a collection that does not exist yet does not raise, whatever the
    number of rows: it creates the collection with one record per row, which
    is the empty collection for a dataset without rows. *)
Theorem build_raises_when_no_source_loads self (w : World G) :
  ((forall p, p ∈ data_sources self -> loadable read_csv p = false) ->
   _create_vector_store read_csv self w = (Raise no_valid_csv, w))
  /\ (forall df,
        Loader._load_multiple_files read_csv (data_sources self) = Ok df ->
        chroma w !! job_database = None ->
        exists built w',
          _create_vector_store read_csv self w = (Ok built, w')
          /\ chroma w' !! job_database
             = Some {| coll_description := collection_description;
                       coll_entries := entries_of (iterrows df) |}
          /\ (df_len df = 0%nat ->
              chroma w' !! job_database
              = Some {| coll_description := collection_description;
                        coll_entries := [] |})).
Proof.
  split.
  - intros Hnone. apply create_vector_store_raises.
    by apply load_raises_iff.
  - intros df Hload Hfree.
    destruct (create_vector_store_ok self w df Hload Hfree)
      as (w' & Hrun & Hst).
    eexists. exists w'. split; [exact Hrun|].
    rewrite Hst, lookup_insert_eq. split; [done|].
    intros Hlen. do 2 f_equal. unfold iterrows. by rewrite Hlen.
Qed.

End BuildFacts.

Example build_from_files :
  (fun w => e_id <$> (default [] (coll_entries <$> RAG.chroma w !! job_database)))
    (RAG._initialize_vector_store Demo.files
       (Demo.new_engine [lit "data/jobs.csv"; lit "data/more.csv"])
       Demo.fresh_world).2
  = [lit "job_0"; lit "job_1"; lit "job_2"].
Proof. vm_compute. reflexivity. Qed.

Lemma initialize_twice_reuses_collection_witness :
  exists coll,
    RAG.chroma
      (RAG._initialize_vector_store Demo.files
         (Demo.new_engine [lit "data/jobs.csv"; lit "data/more.csv"])
         Demo.fresh_world).2 !! job_database = Some coll
    /\ length (coll_entries coll) = 3%nat
    /\ NoDup (e_id <$> coll_entries coll).
Proof.
  destruct (initialize_twice_reuses_collection Demo.files
              (Demo.new_engine [lit "data/jobs.csv"; lit "data/more.csv"])
              (Demo.new_engine [lit "data/jobs.csv"; lit "data/more.csv"])
              Demo.fresh_world _ _ eq_refl)
    as (coll & Hcoll & _ & _ & _ & Hbuilt).
  exists coll. split; [exact Hcoll|].
  destruct (Hbuilt eq_refl) as (df & Hload & _ & Hlen & Hnodup).
  split; [|exact Hnodup].
  rewrite Hlen. injection Hload as <-. reflexivity.
Defined.

(** C5, the claim as worded: a source with a header and no row loads as an
    empty dataset; the build does not raise and creates the collection. *)
Lemma empty_dataset_builds_collection :
  (df_len <$> (match Loader._load_multiple_files Demo.files
                       [lit "data/empty.csv"] with
               | Ok df => Some df
               | Raise _ => None
               end) = Some 0%nat)
  /\ match RAG._create_vector_store Demo.files
            (Demo.new_engine [lit "data/empty.csv"]) Demo.fresh_world with
     | (Ok _, w') =>
         RAG.chroma w' !! job_database
         = Some {| coll_description := collection_description;
                   coll_entries := [] |}
     | (Raise _, _) => False
     end.
Proof. split; vm_compute; reflexivity. Qed.

Lemma build_raises_when_no_source_loads_witness :
  RAG._create_vector_store Demo.files
    (Demo.new_engine [lit "missing.csv"; lit "notes.txt"]) Demo.fresh_world
  = (Raise no_valid_csv, Demo.fresh_world).
Proof.
  apply (proj1 (build_raises_when_no_source_loads Demo.files
                  (Demo.new_engine [lit "missing.csv"; lit "notes.txt"])
                  Demo.fresh_world)).
  intros p Hp. simpl in Hp.
  apply elem_of_cons in Hp as [->|Hp]; [reflexivity|].
  apply elem_of_cons in Hp as [->|Hp]; [reflexivity|].
  by apply elem_of_nil in Hp.
Defined.

(** * Further properties of the engine *)

(** ** Retrieval: shape of the result *)

Section SearchShape.
Import RAG.
Context {G : Type}.
Variable index_query : list Entry -> list pystr -> Z -> result QueryResults.

Lemma collect_jobs_zip results ds i metadatas acc :
  qr_distances results !! 0%nat = Some ds ->
  (i + length metadatas <= length ds)%nat ->
  collect_jobs results i metadatas acc
  = Ok (acc ++ zip_with job_of metadatas (drop i ds)).
Proof.
  intros Hds. revert i acc.
  induction metadatas as [|md rest IH]; intros i acc Hlen; simpl.
  - by rewrite app_nil_r.
  - unfold item. rewrite Hds.
    destruct (ds !! i) as [d|] eqn:Hd.
    + rewrite IH by (simpl in Hlen; lia).
      rewrite (drop_S _ _ _ Hd). simpl. by rewrite <- app_assoc.
    + apply lookup_ge_None in Hd. simpl in Hlen. lia.
Qed.

Lemma collect_jobs_short results i metadatas acc :
  (forall ds, qr_distances results !! 0%nat = Some ds ->
     (length ds < i + length metadatas)%nat) ->
  metadatas <> [] ->
  collect_jobs results i metadatas acc = Raise IndexError.
Proof.
  revert i acc. induction metadatas as [|md rest IH]; intros i acc Hshort Hne;
    [done|].
  simpl. unfold item.
  destruct (qr_distances results !! 0%nat) as [ds|] eqn:Hds; [|done].
  specialize (Hshort ds eq_refl). simpl in Hshort.
  destruct (ds !! i) as [d|] eqn:Hd; [|done].
  apply lookup_lt_Some in Hd.
  destruct rest as [|md' rest]; [simpl in Hshort; lia|].
  apply IH; [|done]. intros ds' [= <-]. simpl in *. lia.
Qed.


(** When the index reports fewer distances than neighbours, the search
    raises [IndexError] and returns no partial list. *)
Theorem search_raises_on_missing_distance self query n_results
    (w : World G) c coll mds ds more_mds more_ds :
  collection self = Some c ->
  chroma w !! c = Some coll ->
  index_query (coll_entries coll) [query] n_results
  = Ok {| qr_metadatas := mds :: more_mds; qr_distances := ds :: more_ds |} ->
  (length ds < length mds)%nat ->
  search_relevant_jobs index_query self query n_results w
  = (Raise IndexError, log (EvQuery c [query] n_results) w).
Proof.
  intros Hc Hcoll Hq Hlen.
  unfold search_relevant_jobs, bind, ret, collection_query, lift.
  rewrite Hc, Hcoll, Hq. unfold jobs_of_results, item. simpl.
  rewrite collect_jobs_short; [done| |].
  - intros ds' [= <-]. simpl. lia.
  - intros ->. simpl in Hlen. lia.
Qed.

(** Searching never changes the store, whatever the index answers. *)
Lemma search_keeps_store self query n_results (w : World G) :
  chroma (search_relevant_jobs index_query self query n_results w).2
  = chroma w.
Proof.
  unfold search_relevant_jobs, bind, ret, raise, collection_query, lift.
  destruct (collection self) as [c|]; [|done].
  destruct (chroma w !! c); [|done].
  by destruct (index_query _ _ _).
Qed.

End SearchShape.

(** ** Insight composer: what a call touches *)

Section ComposerEffects.
Import RAG.
Context {G : Type}.
Variable groq_create : pystr -> ChatRequest -> G -> result pystr * G.
Variable index_query : list Entry -> list pystr -> Z -> result QueryResults.

Lemma bind_keeps_store {A B} (m : M G A) (k : A -> M G B) (w : World G) :
  (forall w0, chroma (m w0).2 = chroma w0) ->
  (forall a w0, chroma (k a w0).2 = chroma w0) ->
  chroma (bind m k w).2 = chroma w.
Proof.
  intros Hm Hk. unfold bind. specialize (Hm w).
  destruct (m w) as [[a|e] w1]; simpl in *; [|done].
  by rewrite Hk.
Qed.

Lemma completion_keeps_store client req (w : World G) :
  chroma (chat_completions_create groq_create client req w).2 = chroma w.
Proof.
  unfold chat_completions_create, raise. destruct client as [key|]; [|done].
  by destruct (groq_create key req (service w)).
Qed.

Lemma insights_keep_store self resume_text user_query (w : World G) :
  chroma (get_career_insights groq_create index_query self resume_text
            user_query w).2 = chroma w.
Proof.
  unfold get_career_insights.
  apply bind_keeps_store; [intros; apply completion_keeps_store|].
  intros content w0.
  apply bind_keeps_store; [intros; apply search_keeps_store|].
  intros jobs w1.
  apply bind_keeps_store; [intros; apply completion_keeps_store|done].
Qed.

(** The insight composer only reads the index: whatever the generation
    service and the index answer, and whether the call returns or raises,
    [get_career_insights] and [chat_with_career_advisor] leave every
    collection of the store as it was. *)
Theorem composer_never_writes_store self resume_text user_query chat_history
    user_message (w : World G) :
  chroma (get_career_insights groq_create index_query self resume_text
            user_query w).2 = chroma w
  /\ chroma (chat_with_career_advisor groq_create index_query self
              resume_text chat_history user_message w).2 = chroma w.
Proof.
  split; [apply insights_keep_store|].
  unfold chat_with_career_advisor.
  apply bind_keeps_store; [intros; apply insights_keep_store|].
  intros data w0.
  apply bind_keeps_store; [intros; apply completion_keeps_store|done].
Qed.

(** Only the first 2000 characters of the resume matter: a resume and its
    2000-character prefix give the same run of [get_career_insights] and of
    [chat_with_career_advisor] (same result, same calls). *)
Theorem resume_is_read_up_to_2000 self resume_text user_query chat_history
    user_message (w : World G) :
  get_career_insights groq_create index_query self resume_text user_query w
  = get_career_insights groq_create index_query self (take 2000 resume_text)
      user_query w
  /\ chat_with_career_advisor groq_create index_query self resume_text
       chat_history user_message w
     = chat_with_career_advisor groq_create index_query self
         (take 2000 resume_text) chat_history user_message w.
Proof.
  assert (skills_prompt (take 2000 resume_text) = skills_prompt resume_text)
    as Hprompt by (unfold skills_prompt, slice_to; by rewrite take_idemp).
  assert (forall q w0,
    get_career_insights groq_create index_query self resume_text q w0
    = get_career_insights groq_create index_query self (take 2000 resume_text)
        q w0) as Hgci
    by (intros; unfold get_career_insights; by rewrite Hprompt).
  split; [apply Hgci|].
  unfold chat_with_career_advisor, bind. by rewrite Hgci.
Qed.

(** A successful run of [get_career_insights] makes three calls and no
    other: the skills completion, one index query for 15 neighbours on the
    trimmed analysis followed by a blank and the user query, and the insights
    completion. It returns both replies trimmed and every retrieved job. *)
Theorem insights_success_path self key c resume_text user_query (w : World G)
    content g1 jobs w2 reply g3 :
  client_groq self = Some key ->
  collection self = Some c ->
  groq_create key (skills_request resume_text) (service w) = (Ok content, g1) ->
  search_relevant_jobs index_query self
    (strip content ++ lit " " ++ or_else user_query []) 15
    (log (EvCompletion (skills_request resume_text)) (set_service g1 w))
  = (Ok jobs, w2) ->
  groq_create key (insights_request content jobs user_query) (service w2)
  = (Ok reply, g3) ->
  exists w3,
    get_career_insights groq_create index_query self resume_text user_query w
    = (Ok {| insights := strip reply; relevant_jobs := jobs;
             skills_analysis := strip content |}, w3)
    /\ trace w3
       = trace w
         ++ [EvCompletion (skills_request resume_text);
             EvQuery c [strip content ++ lit " " ++ or_else user_query []] 15;
             EvCompletion (insights_request content jobs user_query)].
Proof.
  intros Hkey Hc Hfirst Hsearch Hsecond.
  eexists. split.
  - unfold get_career_insights, bind, chat_completions_create, ret.
    rewrite Hkey. fold (skills_request resume_text). rewrite Hfirst, Hsearch.
    fold (insights_request content jobs user_query). by rewrite Hsecond.
  - destruct (search_ok _ _ _ _ _ _ _ Hsearch)
      as (c' & coll & results & Hc' & _ & _ & -> & _).
    assert (c' = c) as -> by congruence.
    simpl. by rewrite <- !app_assoc.
Qed.

(** [chat_with_career_advisor] raises whatever [get_career_insights] raises,
    in the same world: no chat completion is requested then. A failure of
    the chat completion itself is raised as well. *)
Theorem chat_failure_propagates self resume_text chat_history user_message
    (w : World G) e :
  (forall w1,
      get_career_insights groq_create index_query self resume_text
        (Some user_message) w = (Raise e, w1) ->
      chat_with_career_advisor groq_create index_query self resume_text
        chat_history user_message w = (Raise e, w1))
  /\ (forall data w1 w2,
        get_career_insights groq_create index_query self resume_text
          (Some user_message) w = (Ok data, w1) ->
        chat_completions_create groq_create (client_groq self)
          (user_request (chat_prompt data chat_history user_message) 600
             (Q2Qc (8 # 10))) w1 = (Raise e, w2) ->
        chat_with_career_advisor groq_create index_query self resume_text
          chat_history user_message w = (Raise e, w2)).
Proof.
  split.
  - intros w1 Hgci. unfold chat_with_career_advisor, bind. by rewrite Hgci.
  - intros data w1 w2 Hgci Hchat.
    unfold chat_with_career_advisor, bind. by rewrite Hgci, Hchat.
Qed.

End ComposerEffects.

(** ** Building the index: batches and the constructor *)

Section BuildEffects.
Import RAG.
Context {G : Type}.
Variable read_csv : pystr -> Encoding -> result DataFrame.

Lemma batch_ids_seq (df : DataFrame) (i : nat) :
  batch_ids df i
  = job_id <$> seq i (batch_size `min` (df_len df - i)).
Proof.
  unfold batch_ids, iloc, iterrows.
  replace (i + batch_size - i)%nat with batch_size by lia.
  transitivity (job_id <$> (take batch_size (drop i
                   ((zip (seq 0 (df_len df)) (df_rows df)).*1)))).
  - rewrite <- fmap_drop, <- fmap_take, <- list_fmap_compose.
    apply list_fmap_ext. by intros k [idx row] _.
  - rewrite fst_zip by (rewrite length_seq; done).
    by rewrite drop_seq, take_seq.
Qed.

Lemma for_each_add_batch_trace name df starts (w : World G) c :
  chroma w !! name = Some c ->
  trace (for_each starts (add_batch name df) w).2
  = trace w ++ ((fun i => EvAdd name (batch_ids df i)) <$> starts).
Proof.
  revert w c. induction starts as [|i starts IH]; intros w c Hc.
  - simpl. by rewrite app_nil_r.
  - cbn [for_each]. unfold bind at 1. unfold add_batch at 1, collection_add.
    rewrite Hc.
    match goal with
    | |- context [log ?ev (set_chroma ?st w)] =>
        rewrite (IH (log ev (set_chroma st w)) _ (lookup_insert_eq _ _ _))
    end.
    rewrite fmap_cons. simpl. by rewrite <- app_assoc.
Qed.

Lemma range_step_batches n k :
  k ∈ range_step n batch_size ->
  (1 <= batch_size `min` (n - k) <= batch_size)%nat.
Proof.
  unfold range_step, batch_size. intros Hk.
  apply list_elem_of_fmap in Hk as (j & -> & Hj).
  apply elem_of_seq in Hj.
  pose proof (Nat.div_mod (n + (100 - 1)) 100).
  pose proof (Nat.mod_upper_bound (n + (100 - 1)) 100).
  lia.
Qed.

(** A build on a store without the collection creates the collection and
    then sends the records in batches: one [add] per hundred rows started,
    each with between 1 and 100 ids, the ids [job_i] of consecutive rows;
    no empty batch is ever sent. *)
Theorem build_sends_batches_of_100 self (w : World G) df :
  Loader._load_multiple_files read_csv (data_sources self) = Ok df ->
  chroma w !! job_database = None ->
  trace (_create_vector_store read_csv self w).2
  = trace w
    ++ EvCreateCollection job_database
       :: ((fun i => EvAdd job_database
                       (job_id <$> seq i (batch_size `min` (df_len df - i))))
             <$> range_step (df_len df) batch_size)
  /\ length (range_step (df_len df) batch_size)
     = ((df_len df + 99) / 100)%nat
  /\ Forall (fun i => (1 <= batch_size `min` (df_len df - i) <= batch_size)%nat)
       (range_step (df_len df) batch_size).
Proof.
  intros Hload Hfree. split; [|split].
  - unfold _create_vector_store, bind at 1, lift. rewrite Hload.
    unfold bind at 1, create_collection. rewrite Hfree.
    unfold bind.
    match goal with
    | |- context [for_each ?l ?f ?w0] =>
        pose proof (for_each_add_batch_trace job_database df l w0 _
                      (lookup_insert_eq _ _ _)) as Htrace;
        destruct (for_each l f w0) as [[[]|e] w1]
    end; simpl in *; rewrite Htrace, <- app_assoc; simpl; do 2 f_equal;
      apply list_fmap_ext; intros; by rewrite batch_ids_seq.
  - unfold range_step, batch_size. rewrite length_fmap, length_seq.
    reflexivity.
  - apply List.Forall_forall. intros i Hi. apply range_step_batches.
    by apply list_elem_of_In.
Qed.

Lemma load_ok_iff sources :
  is_ok (Loader._load_multiple_files read_csv sources) = true
  <-> exists p, p ∈ sources /\ loadable read_csv p = true.
Proof.
  rewrite load_multiple_files_eq. split.
  - destruct (omap _ _) as [|df dfs] eqn:Hdfs; [done|]. intros _.
    assert (df ∈ omap (Loader.load_one read_csv) sources) as Hin
      by (rewrite Hdfs; apply list_elem_of_here).
    apply list_elem_of_omap in Hin as (p & Hp & Hload).
    exists p. split; [done|].
    destruct (loadable read_csv p) eqn:Hl; [done|].
    apply load_one_loadable in Hl. congruence.
  - intros (p & Hp & Hl).
    destruct (Loader.load_one read_csv p) as [df|] eqn:Hload.
    + assert (df ∈ omap (Loader.load_one read_csv) sources) as Hin
        by (apply list_elem_of_omap; eauto).
      destruct (omap _ _); [by apply elem_of_nil in Hin|done].
    + apply load_one_loadable in Hload. congruence.
Qed.


End BuildEffects.

(** ** Combined table: tags and missing cells *)

Section TableFacts.
Variable read_csv : pystr -> Encoding -> result DataFrame.

Lemma elem_of_union_columns (seen : list pystr) (dfs : list DataFrame)
    (c : pystr) :
  c ∈ union_columns seen dfs
  <-> c ∈ seen \/ exists df, df ∈ dfs /\ c ∈ df_columns df.
Proof.
  revert seen. induction dfs as [|df dfs IH]; intros seen; simpl.
  - split; [by left|]. intros [H|(df & Hdf & _)]; [done|].
    by apply elem_of_nil in Hdf.
  - rewrite IH, elem_of_app. split.
    + intros [[H|H]|(df' & Hdf' & Hc)]; [by left| |].
      * right. exists df. split; [apply list_elem_of_here|].
        apply list_elem_of_In in H. apply List.filter_In in H as [H _].
        apply list_elem_of_In in H. by rewrite elem_of_remove_dups in H.
      * right. exists df'. split; [by apply list_elem_of_further|done].
    + intros [H|(df' & Hdf' & Hc)]; [by left; left|].
      apply elem_of_cons in Hdf' as [->|Hdf'].
      * destruct (decide (c ∈ seen)) as [Hs|Hs]; [by left; left|].
        left. right. apply list_elem_of_In. apply List.filter_In. split.
        -- apply list_elem_of_In. by rewrite elem_of_remove_dups.
        -- by rewrite bool_decide_eq_false_2.
      * right. by exists df'.
Qed.

Lemma lookup_missing_cells (cols : list pystr) (col : pystr) :
  (list_to_map ((fun c => (c, CNaN)) <$> cols) : gmap pystr Cell) !! col
  = if bool_decide (col ∈ cols) then Some CNaN else None.
Proof.
  induction cols as [|c cols IH]; [done|].
  rewrite fmap_cons, list_to_map_cons, lookup_insert, IH.
  destruct (decide (c = col)) as [->|Hne].
  - rewrite bool_decide_eq_true_2; [done|apply list_elem_of_here].
  - destruct (decide (col ∈ cols)) as [Hin|Hin].
    + rewrite !bool_decide_eq_true_2;
        [done|by apply list_elem_of_further|done].
    + rewrite !bool_decide_eq_false_2; [done| |done].
      intros [->|H]%elem_of_cons; done.
Qed.

Lemma lookup_reindex (cols : list pystr) (row : gmap pystr Cell)
    (col : pystr) :
  reindex cols row !! col
  = match row !! col with
    | Some v => Some v
    | None => if bool_decide (col ∈ cols) then Some CNaN else None
    end.
Proof.
  unfold reindex. rewrite lookup_union, lookup_missing_cells.
  destruct (row !! col); [|by destruct (bool_decide _)].
  by destruct (bool_decide _).
Qed.

(** Every row of the table the loader returns is tagged, in the column
    [source_file], with the path of a configured source that can be loaded;
    that column is one of the columns of the table. *)
Theorem loaded_rows_are_tagged sources combined :
  Loader._load_multiple_files read_csv sources = Ok combined ->
  lit "source_file" ∈ df_columns combined
  /\ forall row, row ∈ df_rows combined ->
       exists p, p ∈ sources /\ loadable read_csv p = true
                 /\ row !! lit "source_file" = Some (CVal p).
Proof.
  rewrite load_multiple_files_eq.
  destruct (omap (Loader.load_one read_csv) sources) as [|df0 dfs] eqn:Hdfs;
    [done|].
  intros [= <-]. rewrite <- Hdfs.
  assert (forall df, df ∈ omap (Loader.load_one read_csv) sources ->
            exists p raw, p ∈ sources /\ loadable read_csv p = true
              /\ df = set_column (lit "source_file") (CVal p) raw) as Hfrom.
  { intros df (p & Hp & Hload)%list_elem_of_omap.
    destruct (loadable read_csv p) eqn:Hl;
      [|apply load_one_loadable in Hl; congruence].
    unfold Loader.load_one in Hload.
    destruct (Loader.endswith _ _); [|done].
    destruct (Loader.read_with_fallback read_csv p) as [raw|]; [|done].
    injection Hload as <-. by exists p, raw. }
  split.
  - unfold pd_concat. simpl. apply elem_of_union_columns. right.
    exists df0. split; [rewrite Hdfs; apply list_elem_of_here|].
    destruct (Hfrom df0) as (p & raw & _ & _ & ->);
      [rewrite Hdfs; apply list_elem_of_here|].
    unfold set_column. simpl. case_bool_decide; [done|].
    apply elem_of_app. right. apply list_elem_of_here.
  - intros row Hrow. unfold pd_concat in Hrow. simpl in Hrow.
    apply list_elem_of_bind in Hrow as (df & Hrow & Hdf).
    apply list_elem_of_fmap in Hrow as (row0 & -> & Hrow0).
    destruct (Hfrom df Hdf) as (p & raw & Hp & Hl & ->).
    exists p. split; [done|]. split; [done|].
    unfold set_column in Hrow0. simpl in Hrow0.
    apply list_elem_of_fmap in Hrow0 as (row1 & -> & _).
    by rewrite lookup_reindex, lookup_insert_eq.
Qed.


End TableFacts.

(** ** Trimming *)

Lemma rev_is_reverse {A} (l : list A) : rev l = reverse l.
Proof. apply rev_alt. Qed.

Lemma lstrip_split (s : pystr) :
  exists blanks,
    s = blanks ++ lstrip s /\ Forall (fun c => isspace c = true) blanks.
Proof.
  induction s as [|c s (blanks & Hs & Hb)]; simpl.
  - by exists [].
  - destruct (isspace c) eqn:Hc.
    + exists (c :: blanks). split; [by rewrite Hs at 1|by constructor].
    + by exists [].
Qed.

Lemma lstrip_head (s : pystr) :
  from_option isspace false (list.head (lstrip s)) = false.
Proof.
  induction s as [|c s IH]; simpl; [done|].
  destruct (isspace c) eqn:Hc; [done|]. simpl. exact Hc.
Qed.

Lemma rstrip_split (s : pystr) :
  exists blanks,
    s = rstrip s ++ blanks /\ Forall (fun c => isspace c = true) blanks.
Proof.
  destruct (lstrip_split (rev s)) as (blanks & Hs & Hb).
  exists (rev blanks). split.
  - unfold rstrip. rewrite <- rev_app_distr, <- Hs. by rewrite rev_involutive.
  - by apply List.Forall_rev.
Qed.

Lemma rstrip_last (s : pystr) :
  from_option isspace false (list.last (rstrip s)) = false.
Proof.
  unfold rstrip. rewrite rev_is_reverse, last_reverse. apply lstrip_head.
Qed.

Lemma rstrip_head (s : pystr) :
  from_option isspace false (list.head s) = false ->
  from_option isspace false (list.head (rstrip s)) = false.
Proof.
  intros Hs. destruct (rstrip_split s) as (blanks & Heq & _).
  destruct (rstrip s) as [|c r]; [done|].
  rewrite Heq in Hs. exact Hs.
Qed.

Lemma strip_trimmed (s : pystr) : trimmed (strip s) = true.
Proof.
  unfold trimmed, strip.
  by rewrite rstrip_head, rstrip_last by apply lstrip_head.
Qed.

Lemma lstrip_id (s : pystr) :
  from_option isspace false (list.head s) = false -> lstrip s = s.
Proof. destruct s as [|c s]; simpl; [done|]. by intros ->. Qed.

Lemma rstrip_id (s : pystr) :
  from_option isspace false (list.last s) = false -> rstrip s = s.
Proof.
  intros Hs. unfold rstrip. rewrite lstrip_id; [apply rev_involutive|].
  by rewrite rev_is_reverse, head_reverse.
Qed.

Lemma trimmed_strip (s : pystr) : trimmed s = true -> strip s = s.
Proof.
  unfold trimmed. intros [H1 H2]%andb_true_iff.
  apply negb_true_iff in H1, H2.
  unfold strip. by rewrite lstrip_id, rstrip_id.
Qed.

Section TrimmedOutputs.
Import RAG.
Context {G : Type}.
Variable groq_create : pystr -> ChatRequest -> G -> result pystr * G.
Variable index_query : list Entry -> list pystr -> Z -> result QueryResults.

Lemma insights_ok_inv self resume_text user_query (w w' : World G) d :
  get_career_insights groq_create index_query self resume_text user_query w
  = (Ok d, w') ->
  exists content reply,
    insights d = strip reply /\ skills_analysis d = strip content.
Proof.
  unfold get_career_insights, bind, ret.
  destruct (chat_completions_create _ _ _ w) as [[content|] w1]; [|done].
  destruct (search_relevant_jobs _ _ _ _ w1) as [[jobs|] w2]; [|done].
  destruct (chat_completions_create _ _ _ w2) as [[reply|] w3]; [|done].
  intros [= <- _]. by exists content, reply.
Qed.

(** No text that leaves the engine begins or ends with whitespace: the
    insights and the skills analysis of [get_career_insights], the reply of
    [chat_with_career_advisor], and the document of every record the build
    stores. Trimming such a text again changes nothing. *)
Theorem returned_texts_are_trimmed self resume_text user_query chat_history
    user_message (w : World G) :
  (forall d w',
      get_career_insights groq_create index_query self resume_text
        user_query w = (Ok d, w') ->
      trimmed (insights d) = true /\ trimmed (skills_analysis d) = true)
  /\ (forall reply w',
        chat_with_career_advisor groq_create index_query self resume_text
          chat_history user_message w = (Ok reply, w') ->
        trimmed reply = true /\ strip reply = reply)
  /\ (forall items,
        Forall (fun e => trimmed (e_document e) = true) (entries_of items)).
Proof.
  split; [|split].
  - intros d w' Hrun.
    destruct (insights_ok_inv _ _ _ _ _ _ Hrun) as (content & reply & -> & ->).
    split; apply strip_trimmed.
  - intros reply w'. unfold chat_with_career_advisor, bind, ret.
    destruct (get_career_insights _ _ _ _ _ w) as [[data|] w1]; [|done].
    destruct (chat_completions_create _ _ _ w1) as [[text|] w2]; [|done].
    intros [= <- _]. split; [apply strip_trimmed|].
    apply trimmed_strip, strip_trimmed.
  - intros items. unfold entries_of. apply list.Forall_fmap, List.Forall_forall.
    intros [idx row] _. simpl. apply strip_trimmed.
Qed.

End TrimmedOutputs.

(** ** Skills helper: shape of the tokens *)

Section SkillsShape.
Import Skills.
Variable lower : pystr -> pystr.

Let keep (skill : pystr) : bool := truthy (strip skill).

Lemma re_split_runs_no_sep (b : bool) (s : pystr) :
  Forall (Forall (fun c => is_sep c = false)) (re_split_runs b s).
Proof.
  revert b. induction s as [|c s IH]; intros b; simpl.
  - by repeat constructor.
  - destruct (is_sep c) eqn:Hc.
    + destruct b; [apply IH|]. constructor; [constructor|apply IH].
    + specialize (IH false).
      destruct (re_split_runs false s) as [|t ts]; simpl.
      * by repeat constructor.
      * inversion IH; subst. constructor; [by constructor|done].
Qed.

Lemma lstrip_sublist (P : N -> Prop) (s : pystr) :
  Forall P s -> Forall P (lstrip s).
Proof.
  intros H. destruct (lstrip_split s) as (blanks & Heq & _).
  rewrite Heq in H. by apply List.Forall_app in H as [_ H].
Qed.

Lemma strip_sublist (P : N -> Prop) (s : pystr) :
  Forall P s -> Forall P (strip s).
Proof.
  intros H. unfold strip.
  destruct (rstrip_split (lstrip s)) as (blanks & Heq & _).
  apply lstrip_sublist in H. rewrite Heq in H.
  by apply List.Forall_app in H as [H _].
Qed.

(** The helper returns the lower-casing of tokens none of which is empty,
    begins or ends with whitespace, or contains one of the separators
    [|], [,] and [;]. *)
Theorem extracted_skills_are_clean (skills_str : Cell) :
  exists tokens,
    _extract_skills lower skills_str = lower <$> tokens
    /\ Forall (fun t => t <> []
                        /\ trimmed t = true
                        /\ Forall (fun c => is_sep c = false) t) tokens.
Proof.
  destruct skills_str as [|s].
  - exists []. split; [done|constructor].
  - exists (strip <$> List.filter keep (re_split s)). split.
    + unfold _extract_skills. simpl. by rewrite <- list_fmap_compose.
    + apply list.Forall_fmap, List.Forall_forall. intros t Ht. simpl.
      apply List.filter_In in Ht as [Ht Hkeep]. split; [|split].
      * unfold keep in Hkeep. by destruct (strip t).
      * apply strip_trimmed.
      * apply strip_sublist.
        pose proof (re_split_runs_no_sep false s) as Hall.
        rewrite List.Forall_forall in Hall. by apply Hall.
Qed.

Lemma split_each_nonempty (s : pystr) : split_each s <> [].
Proof.
  induction s as [|c s IH]; simpl; [done|].
  destruct (is_sep c); [done|]. by destruct (split_each s).
Qed.

Lemma split_each_app (s1 s2 : pystr) (sep : N) :
  is_sep sep = true ->
  split_each (s1 ++ sep :: s2) = split_each s1 ++ split_each s2.
Proof.
  intros Hsep. induction s1 as [|c s1 IH]; simpl.
  - by rewrite Hsep.
  - rewrite IH. destruct (is_sep c); [done|].
    pose proof (split_each_nonempty s1).
    by destruct (split_each s1).
Qed.

(** Joining two skills strings with a separator gives the skills of the
    first followed by the skills of the second. *)
Theorem extract_skills_of_joined (s1 s2 : pystr) (sep : N) :
  is_sep sep = true ->
  _extract_skills lower (CVal (s1 ++ sep :: s2))
  = _extract_skills lower (CVal s1) ++ _extract_skills lower (CVal s2).
Proof.
  intros Hsep. unfold _extract_skills. simpl. fold keep.
  rewrite !(re_split_each), (split_each_app _ _ _ Hsep).
  by rewrite List.filter_app, fmap_app.
Qed.

End SkillsShape.

(** ** Salary and experience helpers *)

Example extract_salary_run :
  (Analytics._extract_salary Analytics.decimal_ascii 4300)
    <$> [CVal (lit "2,00,000 - 3,00,000 PA."); CVal (lit "Not Disclosed by Recruiter");
         CVal (lit "50,000"); CVal (lit "5000 , negotiable"); CNaN;
         CVal (lit "10, 15")]
  = [Some 250000; None; Some 50000; None; None; Some 12].
Proof. vm_compute. reflexivity. Qed.

Example extract_experience_run :
  (Analytics._extract_experience Analytics.decimal_ascii 4300)
    <$> [CVal (lit "5 - 10 yrs"); CVal (lit "3+ years"); CVal (lit "fresher"); CNaN]
  = [Ok (Some 7); Ok (Some 3); Ok None; Ok None].
Proof. vm_compute. reflexivity. Qed.

Lemma findall_runs_spec (cls : N -> bool) (s : pystr) :
  Forall (fun t => t <> [] /\ Forall (fun c => cls c = true) t)
    (findall_runs cls s).
Proof.
  induction s as [|c s IH]; simpl; [constructor|].
  destruct (cls c) eqn:Hc; [|done].
  destruct s as [|c' s]; [by repeat constructor|].
  destruct (cls c') eqn:Hc'; [|by repeat constructor].
  destruct (findall_runs cls (c' :: s)) as [|t ts]; simpl.
  - by repeat constructor.
  - inversion IH as [|? ? [_ Ht] Hts]; subst.
    constructor; [|done]. split; [done|by constructor].
Qed.

Lemma findall_runs_nil (cls : N -> bool) (s : pystr) :
  findall_runs cls s = [] <-> Forall (fun c => cls c = false) s.
Proof.
  induction s as [|c s IH]; simpl; [done|].
  destruct (cls c) eqn:Hc.
  - split.
    + destruct s as [|c' s]; [done|]. destruct (cls c'); [|done].
      by destruct (findall_runs cls (c' :: s)).
    + intros H. inversion H; congruence.
  - rewrite IH. split; [by constructor|]. by inversion 1.
Qed.

Lemma mapM_result_length {A B} (f : A -> result B) l ys :
  mapM_result f l = Ok ys -> length ys = length l.
Proof.
  revert ys. induction l as [|x l IH]; intros ys; simpl.
  - by intros [= <-].
  - destruct (f x); [|done]. destruct (mapM_result f l); [|done].
    intros [= <-]. simpl. f_equal. by apply IH.
Qed.

Lemma sum_lower_bound (lo : N) (values : list N) :
  Forall (fun x => lo <= x) values ->
  lo * N.of_nat (length values) <= foldr N.add 0 values.
Proof. induction 1; simpl; lia. Qed.

Lemma sum_strict_upper_bound (hi : N) (values : list N) :
  Forall (fun x => x + 1 <= hi) values ->
  foldr N.add 0 values + N.of_nat (length values)
  <= N.of_nat (length values) * hi.
Proof. induction 1; simpl; lia. Qed.

Lemma average_between (values : list N) :
  values <> [] ->
  (exists x, x ∈ values /\ x <= average values)
  /\ (exists y, y ∈ values /\ average values <= y).
Proof.
  intros Hne.
  assert (N.of_nat (length values) <> 0) as Hlen
    by (destruct values; [done|simpl; lia]).
  split.
  - destruct (decide (Exists (fun x => x <= average values) values))
      as [Hex|Hex].
    + apply List.Exists_exists in Hex as (x & Hx & Hle).
      exists x. split; [by apply list_elem_of_In|done].
    + exfalso. apply list.not_Exists_Forall in Hex; [|intros; apply _].
      assert (Forall (fun x => average values + 1 <= x) values) as Hall
        by (eapply List.Forall_impl; [|exact Hex]; simpl; intros; lia).
      apply sum_lower_bound in Hall.
      unfold average in *.
      pose proof (N.div_mod (foldr N.add 0 values)
                    (N.of_nat (length values)) Hlen).
      pose proof (N.mod_lt (foldr N.add 0 values)
                    (N.of_nat (length values)) Hlen).
      nia.
  - destruct (decide (Exists (fun y => average values <= y) values))
      as [Hex|Hex].
    + apply List.Exists_exists in Hex as (y & Hy & Hle).
      exists y. split; [by apply list_elem_of_In|done].
    + exfalso. apply list.not_Exists_Forall in Hex; [|intros; apply _].
      assert (Forall (fun y => y + 1 <= average values) values) as Hall
        by (eapply List.Forall_impl; [|exact Hex]; simpl; intros; lia).
      apply sum_strict_upper_bound in Hall.
      unfold average in *.
      pose proof (N.Div0.mul_div_le (foldr N.add 0 values)
                    (N.of_nat (length values))).
      lia.
Qed.

Section AnalyticsFacts.
Import Analytics.
Variable decimal : N -> option N.
Variable max_str_digits : nat.

#[local] Abbreviation py_int := (py_int decimal max_str_digits).
#[local] Abbreviation is_digit := (is_digit decimal).
#[local] Abbreviation digit_or_comma := (digit_or_comma decimal).

Lemma digits_value_total (t : pystr) (acc : N) :
  Forall (fun c => is_digit c = true) t ->
  exists v, digits_value decimal acc t = Some v.
Proof.
  revert acc. induction t as [|c t IH]; intros acc Ht; simpl; [by eexists|].
  inversion Ht as [|? ? Hc Ht']; subst. unfold Analytics.is_digit in Hc.
  destruct (decimal c); [by apply IH|done].
Qed.

(** [int] of a run of digits returns, unless the run is longer than the
    limit of the runtime. *)
Lemma py_int_run (t : pystr) :
  t <> [] ->
  Forall (fun c => is_digit c = true) t ->
  (exists v, py_int t = Ok v
             /\ ((0 <? max_str_digits)%nat && (max_str_digits <? length t)%nat
                 = false))
  \/ (py_int t = Raise (too_many_digits max_str_digits (length t))
      /\ (0 < max_str_digits < length t)%nat).
Proof.
  intros Hne Ht. unfold Analytics.py_int.
  destruct t as [|c t]; [done|].
  destruct ((0 <? max_str_digits)%nat
            && (max_str_digits <? length (c :: t))%nat) eqn:Hlim.
  - right. split; [done|].
    apply andb_true_iff in Hlim as [H1 H2].
    apply Nat.ltb_lt in H1, H2. lia.
  - left. destruct (digits_value_total (c :: t) 0 Ht) as [v Hv].
    exists v. by rewrite Hv.
Qed.

Lemma range_value_between (values : list N) (v : N) :
  range_value values = Some v ->
  (exists x, x ∈ values /\ x <= v) /\ (exists y, y ∈ values /\ v <= y).
Proof.
  destruct values as [|a [|b values]]; simpl; [done| |].
  - intros [= <-]. split; exists a; (split; [apply list_elem_of_here|lia]).
  - intros [= <-]. by apply average_between.
Qed.

Lemma range_value_some (values : list N) :
  values <> [] -> exists v, range_value values = Some v.
Proof. destruct values as [|a [|b values]]; simpl; by eauto. Qed.

(** The years of experience read from a text lie between the smallest and
    the largest number written in it; a text with a single number gives
    that number. *)
Theorem experience_between_extremes (s : pystr) (v : N) :
  _extract_experience decimal max_str_digits (CVal s) = Ok (Some v) ->
  exists values,
    mapM_result py_int (findall_runs is_digit s) = Ok values
    /\ (exists x, x ∈ values /\ x <= v)
    /\ (exists y, y ∈ values /\ v <= y)
    /\ (forall x, values = [x] -> v = x).
Proof.
  unfold _extract_experience. simpl.
  destruct (findall_runs is_digit s) as [|t ts] eqn:Hruns; [done|].
  destruct (mapM_result py_int (t :: ts)) as [values|]; [|done].
  intros [= Hv]. exists values. split; [done|].
  destruct (range_value_between _ _ Hv) as [Hlo Hhi].
  split; [done|]. split; [done|].
  intros x ->. simpl in Hv. congruence.
Qed.

(** The helper gives no experience exactly for a missing cell and for a
    text without any digit. *)
Theorem experience_none_iff_no_digit (s : pystr) :
  _extract_experience decimal max_str_digits CNaN = Ok None
  /\ (_extract_experience decimal max_str_digits (CVal s) = Ok None
      <-> Forall (fun c => decimal c = None) s).
Proof.
  split; [done|].
  assert (Forall (fun c => decimal c = None) s
          <-> findall_runs is_digit s = []) as ->.
  { rewrite findall_runs_nil. apply list.Forall_iff. intros c.
    unfold Analytics.is_digit. by destruct (decimal c). }
  unfold _extract_experience. simpl.
  destruct (findall_runs is_digit s) as [|t ts] eqn:Hruns; [done|].
  split; [|done].
  destruct (mapM_result py_int (t :: ts)) as [values|] eqn:Hmap; [|done].
  apply mapM_result_length in Hmap.
  destruct (range_value_some values) as [v ->]; [|done].
  by destruct values.
Qed.

Lemma mapM_py_int_runs (runs : list pystr) :
  Forall (fun t => t <> [] /\ Forall (fun c => is_digit c = true) t) runs ->
  (exists values, mapM_result py_int runs = Ok values
     /\ Forall (fun t => (0 <? max_str_digits)%nat
                         && (max_str_digits <? length t)%nat = false) runs)
  \/ (exists t, t ∈ runs
        /\ mapM_result py_int runs
           = Raise (too_many_digits max_str_digits (length t))
        /\ (0 < max_str_digits < length t)%nat).
Proof.
  induction 1 as [|t runs [Hne Ht] _ IH]; simpl.
  - left. exists []. split; [done|constructor].
  - destruct (py_int_run t Hne Ht) as [(v & -> & Hlim)|[-> Hlong]].
    + destruct IH as [(values & -> & Hall)|(t' & Hin & -> & Hlong)].
      * left. exists (v :: values). split; [done|by constructor].
      * right. exists t'. split; [by apply list_elem_of_further|done].
    + right. exists t. split; [apply list_elem_of_here|done].
Qed.

Lemma extract_experience_eq (s : pystr) :
  _extract_experience decimal max_str_digits (CVal s)
  = match mapM_result py_int (findall_runs is_digit s) with
    | Ok values => Ok (range_value values)
    | Raise e => Raise e
    end.
Proof.
  unfold _extract_experience. simpl.
  by destruct (findall_runs is_digit s).
Qed.

(** The experience helper raises exactly when the runtime limits integer
    conversions and the text holds a run of digits longer than the limit;
    the error is the [ValueError] of [int] for such a run. *)
Theorem experience_raises_iff_over_limit (s : pystr) :
  (is_ok (_extract_experience decimal max_str_digits (CVal s)) = false
   <-> (0 < max_str_digits)%nat
       /\ Exists (fun t => (max_str_digits < length t)%nat)
            (findall_runs is_digit s))
  /\ (forall e,
        _extract_experience decimal max_str_digits (CVal s) = Raise e ->
        exists t, t ∈ findall_runs is_digit s
                  /\ (max_str_digits < length t)%nat
                  /\ e = too_many_digits max_str_digits (length t)).
Proof.
  rewrite extract_experience_eq.
  destruct (mapM_py_int_runs _ (findall_runs_spec is_digit s))
    as [(values & -> & Hall)|(t & Hin & -> & Hlong)].
  - split; [|done]. simpl. split; [done|].
    intros [Hpos Hex]. apply List.Exists_exists in Hex as (t & Ht & Hlen).
    rewrite List.Forall_forall in Hall. specialize (Hall t Ht).
    apply andb_false_iff in Hall as [H|H]; apply Nat.ltb_ge in H; lia.
  - split.
    + simpl. split; [|done]. intros _. split; [lia|].
      apply List.Exists_exists. exists t. split; [by apply list_elem_of_In|lia].
    + intros e [= <-]. exists t. split; [done|]. split; [lia|done].
Qed.

Lemma extract_salary_eq (s : pystr) :
  contains (lit "Not Disclosed") s = false ->
  _extract_salary decimal max_str_digits (CVal s)
  = match mapM_result (fun num => py_int (remove_commas num))
            (findall_runs digit_or_comma s) with
    | Ok values => range_value values
    | Raise _ => None
    end.
Proof.
  intros Hnd. unfold _extract_salary. simpl. rewrite Hnd.
  by destruct (findall_runs digit_or_comma s).
Qed.

Lemma mapM_result_raises {A B} (f : A -> result B) (l : list A) (x : A) :
  x ∈ l -> is_ok (f x) = false -> is_ok (mapM_result f l) = false.
Proof.
  intros Hx Hfx. induction l as [|y l IH]; [by apply elem_of_nil in Hx|].
  simpl. apply elem_of_cons in Hx as [<-|Hx].
  - by destruct (f x).
  - destruct (f y); [|done]. specialize (IH Hx).
    by destruct (mapM_result f l).
Qed.

(** No salary is read from a text that mentions [Not Disclosed], whatever
    numbers it holds, nor from a text with a comma that stands apart from
    any digit: the failed conversion of that one token discards the numbers
    of all the others. *)
Theorem salary_voided_by_stray_comma (s : pystr) :
  (contains (lit "Not Disclosed") s = true ->
   _extract_salary decimal max_str_digits (CVal s) = None)
  /\ (forall t,
        t ∈ findall_runs digit_or_comma s ->
        Forall (fun c => c = comma) t ->
        _extract_salary decimal max_str_digits (CVal s) = None).
Proof.
  split.
  - intros Hnd. unfold _extract_salary. simpl. by rewrite Hnd.
  - intros t Ht Hcommas.
    destruct (contains (lit "Not Disclosed") s) eqn:Hnd;
      [unfold _extract_salary; simpl; by rewrite Hnd|].
    rewrite (extract_salary_eq _ Hnd).
    assert (remove_commas t = []) as Hempty.
    { clear Ht. unfold remove_commas.
      induction Hcommas as [|c t -> _ IH]; [done|exact IH]. }
    pose proof (mapM_result_raises
                  (fun num => py_int (remove_commas num)) _ t Ht) as Hraise.
    cbv beta in Hraise. rewrite Hempty in Hraise.
    specialize (Hraise eq_refl).
    by destruct (mapM_result _ _).
Qed.

(** A salary read from a text lies between the smallest and the largest of
    the numbers written in it, commas inside a number being skipped; a text
    with a single number gives that number. *)
Theorem salary_between_extremes (salary_str : Cell) (v : N) :
  _extract_salary decimal max_str_digits salary_str = Some v ->
  exists s values,
    salary_str = CVal s
    /\ contains (lit "Not Disclosed") s = false
    /\ mapM_result (fun num => py_int (remove_commas num))
         (findall_runs digit_or_comma s) = Ok values
    /\ (exists x, x ∈ values /\ x <= v)
    /\ (exists y, y ∈ values /\ v <= y)
    /\ (forall x, values = [x] -> v = x).
Proof.
  destruct salary_str as [|s]; [done|].
  destruct (contains (lit "Not Disclosed") s) eqn:Hnd;
    [unfold _extract_salary; simpl; by rewrite Hnd|].
  rewrite (extract_salary_eq _ Hnd).
  destruct (mapM_result _ _) as [values|] eqn:Hmap; [|done].
  intros Hv. exists s, values. split; [done|]. split; [done|].
  split; [done|].
  destruct (range_value_between _ _ Hv) as [Hlo Hhi].
  split; [done|]. split; [done|].
  intros x ->. simpl in Hv. congruence.
Qed.

End AnalyticsFacts.

Lemma experience_between_extremes_witness :
  exists values,
    mapM_result (Analytics.py_int Analytics.decimal_ascii 4300)
      (findall_runs (Analytics.is_digit Analytics.decimal_ascii)
         (lit "5 - 10 yrs")) = Ok values
    /\ (exists x, x ∈ values /\ x <= 7)
    /\ (exists y, y ∈ values /\ 7 <= y)
    /\ (forall x, values = [x] -> 7 = x).
Proof.
  apply (experience_between_extremes Analytics.decimal_ascii 4300
           (lit "5 - 10 yrs") 7).
  vm_compute. reflexivity.
Defined.

Lemma salary_voided_by_stray_comma_witness :
  Analytics._extract_salary Analytics.decimal_ascii 4300
    (CVal (lit "45000 , plus bonus 5000")) = None.
Proof.
  apply (proj2 (salary_voided_by_stray_comma Analytics.decimal_ascii 4300
                  (lit "45000 , plus bonus 5000")) [Analytics.comma]).
  - vm_compute. apply list_elem_of_further, list_elem_of_here.
  - by repeat constructor.
Defined.

Lemma salary_between_extremes_witness :
  exists s values,
    CVal (lit "2,00,000 - 3,00,000 PA.") = CVal s
    /\ contains (lit "Not Disclosed") s = false
    /\ mapM_result
         (fun num => Analytics.py_int Analytics.decimal_ascii 4300
                       (Analytics.remove_commas num))
         (findall_runs (Analytics.digit_or_comma Analytics.decimal_ascii) s)
       = Ok values
    /\ (exists x, x ∈ values /\ x <= 250000)
    /\ (exists y, y ∈ values /\ 250000 <= y)
    /\ (forall x, values = [x] -> 250000 = x).
Proof.
  apply (salary_between_extremes Analytics.decimal_ascii 4300
           (CVal (lit "2,00,000 - 3,00,000 PA.")) 250000).
  vm_compute. reflexivity.
Defined.

Lemma experience_raises_iff_over_limit_witness :
  is_ok (Analytics._extract_experience Analytics.decimal_ascii 640
           (CVal (lit "id " ++ replicate 641 49))) = false.
Proof.
  apply (proj2 (proj1 (experience_raises_iff_over_limit
                         Analytics.decimal_ascii 640
                         (lit "id " ++ replicate 641 49)))).
  split; [apply Nat.ltb_lt; vm_compute; reflexivity|].
  assert (findall_runs (Analytics.is_digit Analytics.decimal_ascii)
            (lit "id " ++ replicate 641 49) = [replicate 641 49]) as ->
    by (vm_compute; reflexivity).
  constructor. rewrite length_replicate. apply Nat.ltb_lt.
  vm_compute. reflexivity.
Defined.

(** ** Skill demand *)

Example skill_demand_run :
  let r := Demand.get_skill_demand_analysis Skills.lower_ascii
             [[lit "python"; lit "sql"]; [lit "aws"; lit "python"];
              [lit "sql"; lit "python"; lit "excel"]]
             [lit "Python"; lit "Rust"; lit "Python"] in
  Demand.user_skill_demand r = [(lit "Python", 3%nat); (lit "Rust", 0%nat)]
  /\ Demand.top_market_skills r
     = [(lit "python", 3%nat); (lit "sql", 2%nat); (lit "aws", 1%nat);
        (lit "excel", 1%nat)].
Proof. vm_compute. split; reflexivity. Qed.

Section DictFacts.
Import Demand.
Context {V : Type}.
Implicit Types (d : list (pystr * V)) (k : pystr) (v : V).

Lemma dict_get_set d k v k' :
  dict_get (dict_set k v d) k'
  = if bool_decide (k = k') then Some v else dict_get d k'.
Proof.
  induction d as [|[k0 v0] d IH]; simpl.
  - by repeat case_bool_decide.
  - repeat (case_bool_decide; simpl; subst); try done; try congruence.
Qed.

Lemma dict_set_keys d k v :
  (dict_set k v d).*1
  = if bool_decide (k ∈ d.*1) then d.*1 else d.*1 ++ [k].
Proof.
  induction d as [|[k0 v0] d IH]; [done|].
  cbn [dict_set]. rewrite (fmap_cons fst (k0, v0)). cbn [fst].
  destruct (decide (k0 = k)) as [->|Hne].
  - rewrite (bool_decide_eq_true_2 (k = k)) by done.
    by rewrite bool_decide_eq_true_2 by apply list_elem_of_here.
  - rewrite (bool_decide_eq_false_2 (k0 = k)) by done.
    rewrite fmap_cons, IH. cbn [fst].
    destruct (decide (k ∈ d.*1)) as [Hin|Hin].
    + rewrite (bool_decide_eq_true_2 (k ∈ d.*1)) by done.
      by rewrite bool_decide_eq_true_2 by (by apply list_elem_of_further).
    + rewrite (bool_decide_eq_false_2 (k ∈ d.*1)) by done.
      rewrite bool_decide_eq_false_2; [done|].
      intros [->|H]%elem_of_cons; done.
Qed.

Lemma dict_set_keys_NoDup d k v : NoDup d.*1 -> NoDup (dict_set k v d).*1.
Proof.
  intros Hnd. rewrite dict_set_keys. case_bool_decide; [done|].
  apply NoDup_app. split; [done|]. split; [|apply NoDup_singleton].
  intros x Hx ->%list_elem_of_singleton. done.
Qed.

Lemma dict_set_keys_elem d k v k' :
  k' ∈ (dict_set k v d).*1 <-> k' = k \/ k' ∈ d.*1.
Proof.
  rewrite dict_set_keys. case_bool_decide as Hk.
  - split; [by right|]. by intros [->|H].
  - rewrite elem_of_app, list_elem_of_singleton. tauto.
Qed.

Lemma dict_get_elem d k v :
  NoDup d.*1 -> (k, v) ∈ d -> dict_get d k = Some v.
Proof.
  induction d as [|[k0 v0] d IH]; intros Hnd Hin; simpl.
  - by apply elem_of_nil in Hin.
  - rewrite fmap_cons in Hnd. apply NoDup_cons in Hnd as [Hk0 Hnd].
    apply elem_of_cons in Hin as [[= <- <-]|Hin].
    + by rewrite bool_decide_eq_true_2.
    + case_bool_decide as Heq; [|by apply IH].
      subst. exfalso. apply Hk0. simpl.
      apply list_elem_of_fmap. by exists (k, v).
Qed.

Lemma dict_get_Some_elem d k v : dict_get d k = Some v -> (k, v) ∈ d.
Proof.
  induction d as [|[k0 v0] d IH]; simpl; [done|].
  case_bool_decide as Heq.
  - intros [= <-]. subst. apply list_elem_of_here.
  - intros H. apply list_elem_of_further. by apply IH.
Qed.

Lemma dict_get_None d k : dict_get d k = None <-> k ∉ d.*1.
Proof.
  induction d as [|[k0 v0] d IH].
  - split; [intros _; apply not_elem_of_nil|done].
  - cbn [dict_get]. rewrite fmap_cons, not_elem_of_cons. cbn [fst].
    destruct (decide (k0 = k)) as [->|Hne].
    + rewrite bool_decide_eq_true_2 by done. split; [done|].
      by intros [H _].
    + rewrite bool_decide_eq_false_2 by done. rewrite IH.
      split; [intros H; split; [congruence|done]|by intros [_ H]].
Qed.

End DictFacts.

Section CounterFacts.
Import Demand.

Lemma counter_get_add (counts : list (pystr * nat)) (k k' : pystr) :
  counter_get (count_add k counts) k'
  = (counter_get counts k' + if bool_decide (k = k') then 1 else 0)%nat.
Proof.
  unfold counter_get, count_add. rewrite dict_get_set.
  case_bool_decide; subst; simpl; lia.
Qed.

Lemma counter_fold (items : list pystr) (acc : list (pystr * nat)) k :
  counter_get (foldl (fun counts x => count_add x counts) acc items) k
  = (counter_get acc k + occurrences k items)%nat.
Proof.
  revert acc. induction items as [|x items IH]; intros acc; simpl.
  - unfold occurrences. simpl. lia.
  - rewrite IH, counter_get_add. unfold occurrences. simpl.
    case_bool_decide; simpl; lia.
Qed.

Lemma counter_get_occurrences (items : list pystr) (k : pystr) :
  counter_get (Counter items) k = occurrences k items.
Proof. unfold Counter. by rewrite counter_fold. Qed.

Lemma counter_fold_keys (items : list pystr) (acc : list (pystr * nat)) :
  NoDup acc.*1 ->
  NoDup (foldl (fun counts x => count_add x counts) acc items).*1
  /\ forall k,
       k ∈ (foldl (fun counts x => count_add x counts) acc items).*1
       <-> k ∈ acc.*1 \/ k ∈ items.
Proof.
  revert acc. induction items as [|x items IH]; intros acc Hnd; simpl.
  - split; [done|]. intros k. split; [by left|].
    intros [H|H]; [done|by apply elem_of_nil in H].
  - destruct (IH (count_add x acc)) as [Hnd' Hkeys];
      [by apply dict_set_keys_NoDup|].
    split; [done|]. intros k. rewrite Hkeys. unfold count_add.
    rewrite dict_set_keys_elem, elem_of_cons. tauto.
Qed.

Lemma occurrences_pos (k : pystr) (items : list pystr) :
  k ∈ items <-> (1 <= occurrences k items)%nat.
Proof.
  unfold occurrences. induction items as [|x items IH]; simpl.
  - split; [by intros H%elem_of_nil|lia].
  - rewrite elem_of_cons, IH. case_bool_decide as Heq; simpl.
    + split; [lia|]. intros _. by left.
    + split; [intros [->|H]; [done|exact H]|by right].
Qed.

(** The entries of a counter: one per distinct item, with its number of
    occurrences. *)
Lemma counter_entries (items : list pystr) :
  NoDup (Counter items).*1
  /\ forall k n,
       (k, n) ∈ Counter items
       <-> k ∈ items /\ n = occurrences k items.
Proof.
  destruct (counter_fold_keys items []) as [Hnd Hkeys]; [constructor|].
  fold (Counter items) in Hnd, Hkeys. split; [done|].
  intros k n. split.
  - intros Hin.
    assert (k ∈ items) as Hk.
    { assert (k ∈ (Counter items).*1) as Hkey
        by (apply list_elem_of_fmap; by exists (k, n)).
      apply Hkeys in Hkey as [Hkey|Hkey]; [by apply elem_of_nil in Hkey|done]. }
    split; [done|].
    pose proof (counter_get_occurrences items k) as Hget.
    unfold counter_get in Hget. by rewrite (dict_get_elem _ _ _ Hnd Hin) in Hget.
  - intros [Hk ->].
    destruct (dict_get (Counter items) k) as [n|] eqn:Hget.
    + pose proof (counter_get_occurrences items k) as Hocc.
      unfold counter_get in Hocc. rewrite Hget in Hocc. simpl in Hocc.
      subst. by apply dict_get_Some_elem.
    + apply dict_get_None in Hget. exfalso. apply Hget, Hkeys. by right.
Qed.

End CounterFacts.

Section DemandFacts.
Import Demand.
Variable lower : pystr -> pystr.

Lemma insert_desc_perm x l : insert_desc x l ≡ₚ x :: l.
Proof.
  induction l as [|y l IH]; simpl; [done|].
  destruct (y.2 <=? x.2)%nat; [done|].
  rewrite IH. apply Permutation_swap.
Qed.

Lemma sorted_desc_perm l : sorted_desc l ≡ₚ l.
Proof.
  induction l as [|x l IH]; simpl; [done|].
  by rewrite insert_desc_perm, IH.
Qed.

Lemma insert_desc_sorted x l :
  StronglySorted by_count_desc l ->
  StronglySorted by_count_desc (insert_desc x l).
Proof.
  induction 1 as [|y l Hl IH Hy]; simpl.
  - by repeat constructor.
  - destruct (y.2 <=? x.2)%nat eqn:Hle.
    + apply Nat.leb_le in Hle. constructor; [by constructor|].
      constructor; [done|].
      eapply List.Forall_impl; [|exact Hy].
      unfold by_count_desc. intros; lia.
    + apply Nat.leb_gt in Hle. constructor; [done|].
      rewrite insert_desc_perm. constructor; [|done].
      unfold by_count_desc. lia.
Qed.

Lemma sorted_desc_sorted l : StronglySorted by_count_desc (sorted_desc l).
Proof.
  induction l as [|x l IH]; simpl; [constructor|].
  by apply insert_desc_sorted.
Qed.

Lemma all_skills_concat (acc : list pystr) (lists : list (list pystr)) :
  foldl (fun all skills_list => all ++ skills_list) acc lists
  = acc ++ concat lists.
Proof.
  revert acc. induction lists as [|l lists IH]; intros acc; simpl.
  - by rewrite app_nil_r.
  - by rewrite IH, app_assoc.
Qed.

Lemma demand_fold (f : pystr -> nat) (user : list pystr)
    (acc : list (pystr * nat)) :
  NoDup acc.*1 ->
  let d := foldl (fun demand skill => dict_set skill (f skill) demand)
             acc user in
  NoDup d.*1
  /\ (forall k, k ∈ d.*1 <-> k ∈ acc.*1 \/ k ∈ user)
  /\ (forall k, dict_get d k
                = if bool_decide (k ∈ user) then Some (f k)
                  else dict_get acc k).
Proof.
  revert acc. induction user as [|x user IH]; intros acc Hnd; simpl.
  - split; [done|]. split; [|done].
    intros k. split; [by left|]. intros [H|H]; [done|by apply elem_of_nil in H].
  - destruct (IH (dict_set x (f x) acc)) as (Hnd' & Hkeys & Hget);
      [by apply dict_set_keys_NoDup|].
    split; [done|]. split.
    + intros k. rewrite Hkeys, dict_set_keys_elem, elem_of_cons. tauto.
    + intros k. rewrite Hget, dict_get_set.
      destruct (decide (k ∈ user)) as [Hin|Hin].
      * rewrite !bool_decide_eq_true_2;
          [done|by apply list_elem_of_further|done].
      * rewrite (bool_decide_eq_false_2 (k ∈ user)) by done.
        destruct (decide (x = k)) as [->|Hne].
        -- rewrite !bool_decide_eq_true_2; [done|apply list_elem_of_here|done].
        -- rewrite !bool_decide_eq_false_2; [done| |done].
           intros [->|H]%elem_of_cons; done.
Qed.

(** The demand reported for a skill of the user is the number of times its
    lower-casing occurs among the skills of all postings, and 0 when it
    does not occur; the report has one entry per distinct skill given, and
    the chart of the user's skills is missing exactly when no skill is
    given. *)
Theorem user_skill_demand_counts (skills_lists : list (list pystr))
    (user_skills : list pystr) :
  let r := get_skill_demand_analysis lower skills_lists user_skills in
  (forall skill,
      skill ∈ user_skills ->
      dict_get (user_skill_demand r) skill
      = Some (occurrences (lower skill) (concat skills_lists)))
  /\ NoDup (user_skill_demand r).*1
  /\ (forall k, k ∈ (user_skill_demand r).*1 <-> k ∈ user_skills)
  /\ (user_skills_chart r = None <-> user_skills = []).
Proof.
  unfold get_skill_demand_analysis. cbn [user_skill_demand user_skills_chart].
  rewrite all_skills_concat, app_nil_l.
  destruct (demand_fold
              (fun skill => counter_get (Counter (concat skills_lists))
                              (lower skill)) user_skills [])
    as (Hnd & Hkeys & Hget); [constructor|].
  cbv zeta in Hnd, Hkeys, Hget.
  split; [|split; [done|split]].
  - intros skill Hin. rewrite Hget, bool_decide_eq_true_2 by done.
    by rewrite counter_get_occurrences.
  - intros k. rewrite Hkeys. split; [|by right].
    intros [H|H]; [by apply elem_of_nil in H|done].
  - match goal with
    | |- context [foldl ?f ?a ?l] => set (d := foldl f a l) in *
    end.
    split; [|by intros ->].
    destruct d as [|e d]; [|done]. intros _.
    destruct user_skills as [|x user]; [done|]. exfalso.
    assert (x ∈ ([] : list (pystr * nat)).*1) as H
      by (apply Hkeys; right; apply list_elem_of_here).
    by apply elem_of_nil in H.
Qed.

(** The market report lists at most 20 skills, each once and with its number
    of occurrences among the skills of all postings, in order of
    non-increasing demand; a skill of the postings that is left out is in no
    greater demand than any listed skill, and is only left out when the
    list is full. *)
Theorem top_market_skills_are_most_demanded (skills_lists : list (list pystr))
    (user_skills : list pystr) :
  let top :=
    top_market_skills
      (get_skill_demand_analysis lower skills_lists user_skills) in
  let all_skills := concat skills_lists in
  (length top <= 20)%nat
  /\ NoDup top.*1
  /\ StronglySorted by_count_desc top
  /\ (forall k n, (k, n) ∈ top ->
        k ∈ all_skills /\ n = occurrences k all_skills /\ (1 <= n)%nat)
  /\ (forall k, k ∈ all_skills -> k ∉ top.*1 ->
        length top = 20%nat
        /\ forall k' n', (k', n') ∈ top ->
             (occurrences k all_skills <= n')%nat).
Proof.
  unfold get_skill_demand_analysis. cbn [top_market_skills].
  rewrite all_skills_concat, app_nil_l.
  set (all_skills := concat skills_lists).
  set (sorted := sorted_desc (Counter all_skills)).
  destruct (counter_entries all_skills) as [Hnd Hentries].
  assert (sorted ≡ₚ Counter all_skills) as Hperm by apply sorted_desc_perm.
  assert (StronglySorted by_count_desc sorted) as Hsorted
    by apply sorted_desc_sorted.
  assert (sorted = most_common 20 (Counter all_skills) ++ drop 20 sorted)
    as Hsplit by (unfold most_common; by rewrite take_drop).
  fold sorted in Hsplit |- *.
  assert (forall k n, (k, n) ∈ most_common 20 (Counter all_skills) ->
            (k, n) ∈ Counter all_skills) as Hsub.
  { intros k n Hin. rewrite <- Hperm, Hsplit. apply elem_of_app. by left. }
  cbv zeta. split; [|split; [|split; [|split]]].
  - unfold most_common. rewrite length_take. lia.
  - assert (NoDup sorted.*1) as Hnd' by (by rewrite Hperm).
    rewrite Hsplit, fmap_app in Hnd'. by apply NoDup_app in Hnd' as [H _].
  - rewrite Hsplit in Hsorted. by apply StronglySorted_app_1_l in Hsorted.
  - intros k n Hin. apply Hsub, Hentries in Hin as [Hk ->].
    split; [done|]. split; [done|]. by apply occurrences_pos.
  - intros k Hk Hout.
    assert ((k, occurrences k all_skills) ∈ drop 20 sorted) as Hdrop.
    { assert ((k, occurrences k all_skills) ∈ sorted) as Hin
        by (rewrite Hperm; by apply Hentries).
      rewrite Hsplit in Hin. apply elem_of_app in Hin as [Hin|Hin]; [|done].
      exfalso. apply Hout. apply list_elem_of_fmap.
      by exists (k, occurrences k all_skills). }
    split.
    + unfold most_common. fold sorted. rewrite length_take.
      destruct (decide (20 <= length sorted)%nat) as [Hlen|Hlen]; [lia|].
      rewrite drop_ge in Hdrop by lia. by apply elem_of_nil in Hdrop.
    + intros k' n' Hin.
      rewrite Hsplit in Hsorted.
      by apply (StronglySorted_app_1_elem_of _ _ _ _ _ Hsorted Hin Hdrop).
Qed.

End DemandFacts.

(** ** Direct generation helper *)

Section HelperFacts.
Import Helper.
Context {G : Type}.
Variable groq_create : ChatCall -> G -> Outcome * G.
Variable lower : pystr -> pystr.

Lemma test_client_outcome key (st : State G) :
  let r := test_client groq_create key st in
  calls r.2 = calls st ++ [test_call key]
  /\ client r.2 = (if r.1 then Some key else None).
Proof.
  unfold test_client, send. simpl.
  by destruct (groq_create (test_call key) (service st)) as [[content|msg] g].
Qed.




End HelperFacts.

(** ** Job search client *)

Example quote_run :
  JobApi.quote (utf8 "data engineer/C++ & café")
  = Some (lit "data%20engineer/C%2B%2B%20%26%20caf%C3%A9").
Proof. vm_compute. reflexivity. Qed.

Section JobApiFacts.
Import JobApi.
Context {G : Type}.
Variable exchange : pystr -> list (pystr * pystr) -> G -> option Json * G.
Variable rapidapi_key : pystr.

Lemma hex_digit_safe (n : N) : n < 16 -> always_safe (hex_digit n) = true.
Proof.
  intros Hn. unfold hex_digit, always_safe.
  destruct (n <? 10) eqn:Hlt.
  - apply N.ltb_lt in Hlt.
    assert ((48 <=? 48 + n) && (48 + n <=? 57) = true) as ->
      by (apply andb_true_iff; split; apply N.leb_le; lia).
    by rewrite !orb_true_r.
  - apply N.ltb_ge in Hlt.
    assert ((65 <=? 55 + n) && (55 + n <=? 90) = true) as ->
      by (apply andb_true_iff; split; apply N.leb_le; lia).
    done.
Qed.

Lemma utf8_encode_char_bytes (c : N) (bs : list N) :
  utf8_encode_char c = Some bs ->
  c < 1114112 ->
  Forall (fun b => b < 256) bs.
Proof.
  unfold utf8_encode_char. intros Hbs Hc.
  repeat match type of Hbs with
         | (if ?b then _ else _) = _ => destruct b eqn:?
         end; try done; injection Hbs as <-;
    repeat match goal with
           | H : (_ <? _) = true |- _ => apply N.ltb_lt in H
           | H : (_ <? _) = false |- _ => apply N.ltb_ge in H
           end;
    repeat constructor.
  all: try (pose proof (N.mod_lt c 64); lia).
  all: try (pose proof (N.mod_lt (c / 64) 64); lia).
  all: try (pose proof (N.mod_lt (c / 4096) 64); lia).
  all: try (assert (c / 64 < 32) by (apply N.Div0.div_lt_upper_bound; lia); lia).
  all: try (assert (c / 4096 < 16) by (apply N.Div0.div_lt_upper_bound; lia); lia).
  all: try (assert (c / 262144 < 8) by (apply N.Div0.div_lt_upper_bound; lia); lia).
Qed.

Lemma quote_byte_safe (b : N) :
  b < 256 -> Forall (fun c => url_safe c = true) (quote_byte b).
Proof.
  intros Hb. unfold quote_byte, url_safe.
  destruct (always_safe b || (b =? 47)) eqn:Hsafe.
  - constructor; [|constructor]. by rewrite Hsafe.
  - repeat constructor.
    + rewrite hex_digit_safe; [done|]. apply N.Div0.div_lt_upper_bound. lia.
    + rewrite hex_digit_safe; [done|]. apply N.mod_lt. lia.
Qed.

Lemma utf8_encode_none (s : pystr) :
  utf8_encode s = None <-> Exists (fun c => is_surrogate c = true) s.
Proof.
  induction s as [|c s IH]; simpl.
  - split; [done|]. by inversion 1.
  - destruct (utf8_encode_char c) as [bs|] eqn:Hc.
    + assert (is_surrogate c = false) as Hns.
      { unfold utf8_encode_char, is_surrogate in *.
        destruct (c <? 128) eqn:H1.
        - apply N.ltb_lt in H1. apply andb_false_iff. left.
          apply N.leb_gt. lia.
        - destruct (c <? 2048) eqn:H2.
          + apply N.ltb_lt in H2. apply andb_false_iff. left.
            apply N.leb_gt. lia.
          + by destruct ((55296 <=? c) && (c <=? 57343)). }
      destruct (utf8_encode s) as [rest|].
      * split; [done|]. intros H. inversion H; subst; [congruence|].
        by apply IH in H1.
      * split; [intros _; apply Exists_cons_tl; by apply IH|done].
    + split; [|done]. intros _. apply Exists_cons_hd.
      unfold utf8_encode_char, is_surrogate in *.
      repeat match type of Hc with
             | (if ?b then _ else _) = _ => destruct b eqn:?
             end; done.
Qed.

(** The escaping of the search query fails exactly for a text with a
    surrogate code point. Otherwise the escaped query is made of letters,
    digits, [_.-~], slashes and percent signs only, so no blank, [&], [=],
    [#] or [?] of the query reaches the URL; a query of letters, digits,
    [_.-~] and slashes is left as it is. *)
Theorem quote_escapes_query (s : pystr) :
  Forall (fun c => c < 1114112) s ->
  (quote s = None <-> Exists (fun c => is_surrogate c = true) s)
  /\ (forall enc, quote s = Some enc -> Forall (fun c => url_safe c = true) enc)
  /\ (Forall (fun c => always_safe c || (c =? 47) = true) s -> quote s = Some s).
Proof.
  intros Hrange. split; [|split].
  - unfold quote. rewrite <- utf8_encode_none. by destruct (utf8_encode s).
  - unfold quote. intros enc.
    destruct (utf8_encode s) as [bytes|] eqn:Hbytes; [|done].
    intros [= <-].
    assert (Forall (fun b => b < 256) bytes) as Hb.
    { clear -Hbytes Hrange. revert bytes Hbytes.
      induction Hrange as [|c s Hc _ IH]; intros bytes; simpl.
      - by intros [= <-].
      - destruct (utf8_encode_char c) as [bs|] eqn:Hbs; [|done].
        destruct (utf8_encode s) as [rest|]; [|done].
        intros [= <-]. apply List.Forall_app. split.
        + by eapply utf8_encode_char_bytes.
        + by apply IH. }
    clear Hbytes. induction Hb as [|b bytes Hlt _ IH]; [constructor|].
    rewrite bind_cons. apply List.Forall_app. split; [|done].
    by apply quote_byte_safe.
  - intros Hsafe. unfold quote.
    assert (utf8_encode s = Some s /\ s ≫= quote_byte = s) as [-> ->]; [|done].
    clear Hrange. induction Hsafe as [|c s Hc _ [IH1 IH2]]; [done|].
    assert (c < 128) as Hascii.
    { unfold always_safe in Hc.
      repeat (apply orb_true_iff in Hc as [Hc|Hc]);
        repeat (apply andb_true_iff in Hc as [? Hc]);
        repeat match goal with
               | H : (_ <=? _) = true |- _ => apply N.leb_le in H
               | H : (_ =? _) = true |- _ => apply N.eqb_eq in H
               end; lia. }
    split.
    + simpl. unfold utf8_encode_char.
      apply N.ltb_lt in Hascii. by rewrite Hascii, IH1.
    + rewrite bind_cons, IH2. unfold quote_byte. by rewrite Hc.
Qed.

Lemma slice_upto_length {A} (rows : Z) (l : list A) :
  (0 <= rows)%Z ->
  (Z.of_nat (length (slice_upto rows l)) <= rows)%Z
  /\ slice_upto rows l `prefix_of` l.
Proof.
  intros Hrows. unfold slice_upto. cbv zeta.
  destruct (rows <? 0)%Z eqn:Hneg; [apply Z.ltb_lt in Hneg; lia|].
  split; [rewrite length_take; lia|].
  apply prefix_take.
Qed.

Lemma select_jobs_size jobs_data rows jobs :
  (0 <= rows)%Z ->
  select_jobs jobs_data rows = Some jobs ->
  exists n, json_size jobs = Some n /\ (Z.of_nat n <= rows)%Z.
Proof.
  intros Hrows.
  assert (forall v, json_slice rows v = Some jobs ->
            exists n, json_size jobs = Some n /\ (Z.of_nat n <= rows)%Z)
    as Hslice.
  { intros [| | |s|items|fields]; simpl; try done; intros [= <-]; simpl;
      eexists; (split; [done|]); by apply slice_upto_length. }
  unfold select_jobs.
  destruct jobs_data as [| | |s|items|fields]; try (intros [= <-]; by exists 0%nat).
  - intros [= <-]. simpl. eexists. split; [done|]. by apply slice_upto_length.
  - destruct (Demand.dict_get fields (lit "data")); [apply Hslice|].
    destruct (Demand.dict_get fields (lit "jobs")); [apply Hslice|].
    intros [= <-]. by exists 0%nat.
Qed.

(** A search whose query can be escaped never raises, whatever happens to
    the request or to the parsing of the body: it returns a value, after
    one request on the escaped URL and one closing of the connection, in
    that order. When the query cannot be escaped the call raises before any
    request, and the connection is not closed. *)
Theorem fetch_closes_and_returns search_query location rows (net : Net G) :
  let r := fetch_linkedin_jobs exchange rapidapi_key search_query location
             rows net in
  match quote search_query with
  | None => r = (RaisesUnicodeEncodeError, record (Connect host) net)
  | Some encoded =>
      (exists jobs, r.1 = Returns jobs)
      /\ events r.2
         = events net
           ++ [Connect host;
               Request (lit "GET") (build_url encoded location)
                 (headers rapidapi_key);
               Close]
  end.
Proof.
  unfold fetch_linkedin_jobs. cbv zeta.
  destruct (quote search_query) as [encoded|]; [|done].
  destruct (exchange _ _ _) as [body g]. simpl.
  split; [by eexists|]. by rewrite <- !app_assoc.
Qed.


(** When the body is an object with a [data] field, that field alone
    decides the result: its first [rows] items when it is a list, and the
    empty list when it cannot be sliced, even if a [jobs] field holds a
    list. *)
Theorem data_field_takes_precedence search_query location rows (net : Net G)
    encoded fields v g :
  (0 <= rows)%Z ->
  quote search_query = Some encoded ->
  exchange (build_url encoded location) (headers rapidapi_key)
    (remote (record (Connect host) net)) = (Some (JObject fields), g) ->
  Demand.dict_get fields (lit "data") = Some v ->
  (fetch_linkedin_jobs exchange rapidapi_key search_query location rows
     net).1
  = Returns match v with
            | JArray items => JArray (take (Z.to_nat rows) items)
            | JString s => JString (take (Z.to_nat rows) s)
            | _ => JArray []
            end.
Proof.
  intros Hrows Hq Hex Hdata. unfold fetch_linkedin_jobs. cbv zeta.
  rewrite Hq, Hex. simpl. rewrite Hdata.
  assert (forall A (l : list A), slice_upto rows l = take (Z.to_nat rows) l)
    as Hslice.
  { intros A l. unfold slice_upto. cbv zeta.
    destruct (rows <? 0)%Z eqn:Hneg; [apply Z.ltb_lt in Hneg; lia|].
    destruct (decide (rows <= Z.of_nat (length l))%Z) as [Hle|Hgt].
    - by rewrite Z.min_l.
    - rewrite Z.min_r by lia. rewrite Nat2Z.id.
      by rewrite !take_ge by lia. }
  destruct v; simpl; by rewrite ?Hslice.
Qed.

End JobApiFacts.

(** ** Concrete runs of the further properties *)


Lemma search_raises_on_missing_distance_witness :
  RAG.search_relevant_jobs Samples.one_distance Demo.engine (lit "python") 2
    Demo.world
  = (Raise IndexError,
     RAG.log (EvQuery job_database [lit "python"] 2) Demo.world).
Proof.
  apply (search_raises_on_missing_distance Samples.one_distance Demo.engine
           (lit "python") 2 Demo.world job_database
           {| coll_description := collection_description;
              coll_entries := Demo.stored |}
           [Demo.backend; Demo.frontend] [Q2Qc (1 # 4)] [] []);
    [reflexivity|reflexivity|reflexivity|simpl; lia].
Defined.

Lemma insights_success_path_witness :
  length (RAG.trace
            (RAG.get_career_insights Demo.flaky_service Demo.two_neighbours
               Demo.keyed_engine Demo.resume None (Demo.world_with 2%nat)).2)
  = 3%nat.
Proof.
  destruct (insights_success_path Demo.flaky_service Demo.two_neighbours
              Demo.keyed_engine (lit "gsk_demo") job_database Demo.resume
              None (Demo.world_with 2%nat)
              (lit "Skills: python, django ") 1%nat _ _
              (lit "Skills: python, django ") 0%nat
              eq_refl eq_refl eq_refl eq_refl eq_refl)
    as (w3 & Hrun & Htrace).
  rewrite Hrun. cbn [snd]. by rewrite Htrace.
Defined.

Lemma build_sends_batches_of_100_witness :
  RAG.trace (RAG._create_vector_store Demo.files
               (Demo.new_engine [lit "data/jobs.csv"; lit "data/more.csv"])
               Demo.fresh_world).2
  = [EvCreateCollection job_database;
     EvAdd job_database [lit "job_0"; lit "job_1"; lit "job_2"]].
Proof.
  destruct (build_sends_batches_of_100 Demo.files
              (Demo.new_engine [lit "data/jobs.csv"; lit "data/more.csv"])
              Demo.fresh_world _ eq_refl eq_refl) as [Htrace _].
  rewrite Htrace. reflexivity.
Defined.

Lemma loaded_rows_are_tagged_witness :
  match Loader._load_multiple_files Demo.files
          [lit "data/jobs.csv"; lit "notes.txt"] with
  | Ok combined => lit "source_file" ∈ df_columns combined
  | Raise _ => False
  end.
Proof.
  destruct (Loader._load_multiple_files Demo.files
              [lit "data/jobs.csv"; lit "notes.txt"]) as [combined|e] eqn:Hload.
  - exact (proj1 (loaded_rows_are_tagged Demo.files
                    [lit "data/jobs.csv"; lit "notes.txt"] combined Hload)).
  - vm_compute in Hload. discriminate Hload.
Defined.

Lemma extract_skills_of_joined_witness :
  Skills._extract_skills Skills.lower_ascii
    (CVal (lit "Python, SQL" ++ 59 :: lit " AWS "))
  = [lit "python"; lit "sql"] ++ [lit "aws"].
Proof.
  rewrite (extract_skills_of_joined Skills.lower_ascii (lit "Python, SQL")
             (lit " AWS ") 59 eq_refl).
  reflexivity.
Defined.


Lemma sample_query_range :
  Forall (fun c => c < 1114112) (lit "data engineer & co").
Proof. repeat (constructor; [reflexivity|]). constructor. Qed.

Lemma sample_query_quoted :
  JobApi.quote (lit "data engineer & co")
  = Some (lit "data%20engineer%20%26%20co").
Proof. vm_compute. reflexivity. Qed.

Lemma quote_escapes_query_witness :
  Forall (fun c => url_safe c = true) (lit "data%20engineer%20%26%20co").
Proof.
  exact (proj1 (proj2 (quote_escapes_query (lit "data engineer & co")
                         sample_query_range))
           (lit "data%20engineer%20%26%20co") sample_query_quoted).
Defined.


Lemma data_field_takes_precedence_witness :
  (JobApi.fetch_linkedin_jobs Runs.odd_exchange (lit "key") (lit "python")
     (lit "india") 60 Runs.offline).1
  = JobApi.Returns (JobApi.JArray []).
Proof.
  apply (data_field_takes_precedence Runs.odd_exchange (lit "key")
           (lit "python") (lit "india") 60 Runs.offline (lit "python")
           [(lit "data", JobApi.JNull);
            (lit "jobs",
             JobApi.JArray [JobApi.JString (lit "Backend Engineer")])]
           JobApi.JNull tt);
    [lia|reflexivity|reflexivity|reflexivity].
Defined.

(** ** Skill demand: ties *)

Section DemandTies.
Import Demand.
Variable lower : pystr -> pystr.

Lemma insert_desc_with_count x l c :
  with_count c (insert_desc x l) = with_count c (x :: l).
Proof.
  unfold with_count. induction l as [|y l IH]; [done|].
  cbn [insert_desc]. destruct (y.2 <=? x.2)%nat eqn:Hle; [done|].
  apply Nat.leb_gt in Hle.
  cbn [List.filter]. cbn [List.filter] in IH. rewrite IH.
  destruct (y.2 =? c)%nat eqn:Hy; destruct (x.2 =? c)%nat eqn:Hx; try done.
  apply Nat.eqb_eq in Hy, Hx. lia.
Qed.

Lemma sorted_desc_with_count l c :
  with_count c (sorted_desc l) = with_count c l.
Proof.
  induction l as [|x l IH]; [done|].
  cbn [sorted_desc foldr]. fold (sorted_desc l).
  rewrite insert_desc_with_count. unfold with_count in *.
  cbn [List.filter]. by rewrite IH.
Qed.

Lemma counter_keys_fold (items : list pystr) (acc : list (pystr * nat)) :
  (foldl (fun counts x => count_add x counts) acc items).*1
  = foldl (fun seen x => if bool_decide (x ∈ seen) then seen else seen ++ [x])
      acc.*1 items.
Proof.
  revert acc. induction items as [|x items IH]; intros acc; [done|].
  cbn [foldl]. rewrite IH. unfold count_add. by rewrite dict_set_keys.
Qed.

(** Skills in equal demand are listed in the order in which they first
    appear in the postings: the counter holds the distinct skills in order of
    first appearance, and the listed entries of any given count are the
    first of the counter's entries of that count, in the same order. *)
Theorem equal_demand_keeps_first_appearance
    (skills_lists : list (list pystr)) (user_skills : list pystr) (c : nat) :
  let all_skills := concat skills_lists in
  (Counter all_skills).*1 = first_appearances all_skills
  /\ with_count c
       (top_market_skills
          (get_skill_demand_analysis lower skills_lists user_skills))
     `prefix_of` with_count c (Counter all_skills).
Proof.
  cbv zeta. split.
  - unfold Counter, first_appearances. by rewrite counter_keys_fold.
  - unfold get_skill_demand_analysis. cbn [top_market_skills].
    rewrite all_skills_concat, app_nil_l.
    rewrite <- (sorted_desc_with_count (Counter (concat skills_lists)) c).
    unfold most_common.
    rewrite <- (take_drop 20 (sorted_desc (Counter (concat skills_lists))))
      at 2.
    unfold with_count. rewrite List.filter_app. by apply prefix_app_r.
Qed.

End DemandTies.

Section ChatCost.
Import RAG.
Context {G : Type}.
Variable groq_create : pystr -> ChatRequest -> G -> result pystr * G.
Variable index_query : list Entry -> list pystr -> Z -> result QueryResults.

(** One chat turn that succeeds costs three completions and one index
    query, in this order: skills, query, insights, chat; the insights are
    computed again at every turn and the reply is the trimmed text of the
    last completion. *)
Theorem chat_turn_makes_four_calls self key c resume_text chat_history
    user_message (w : World G) content g1 jobs w2 reply g3 answer g4 :
  client_groq self = Some key ->
  collection self = Some c ->
  groq_create key (skills_request resume_text) (service w) = (Ok content, g1) ->
  search_relevant_jobs index_query self
    (strip content ++ lit " " ++ or_else (Some user_message) []) 15
    (log (EvCompletion (skills_request resume_text)) (set_service g1 w))
  = (Ok jobs, w2) ->
  groq_create key (insights_request content jobs (Some user_message))
    (service w2) = (Ok reply, g3) ->
  let data := {| insights := strip reply; relevant_jobs := jobs;
                 skills_analysis := strip content |} in
  let chat_request :=
    user_request (chat_prompt data chat_history user_message) 600
      (Q2Qc (8 # 10)) in
  groq_create key chat_request g3 = (Ok answer, g4) ->
  exists w4,
    chat_with_career_advisor groq_create index_query self resume_text
      chat_history user_message w = (Ok (strip answer), w4)
    /\ trace w4
       = trace w
         ++ [EvCompletion (skills_request resume_text);
             EvQuery c
               [strip content ++ lit " " ++ or_else (Some user_message) []] 15;
             EvCompletion (insights_request content jobs (Some user_message));
             EvCompletion chat_request].
Proof.
  intros Hkey Hc Hfirst Hsearch Hsecond data chat_request Hthird.
  destruct (insights_success_path groq_create index_query self key c
              resume_text (Some user_message) w content g1 jobs w2 reply g3
              Hkey Hc Hfirst Hsearch Hsecond) as (w3 & Hgci & Htrace).
  assert (service w3 = g3) as Hservice.
  { revert Hgci. unfold get_career_insights, bind, chat_completions_create, ret.
    rewrite Hkey. fold (skills_request resume_text). rewrite Hfirst, Hsearch.
    fold (insights_request content jobs (Some user_message)).
    rewrite Hsecond. by intros [= <-]. }
  eexists. split.
  - unfold chat_with_career_advisor, bind. rewrite Hgci.
    unfold chat_completions_create, ret. rewrite Hkey.
    fold data. fold chat_request. by rewrite Hservice, Hthird.
  - simpl. rewrite Htrace. by rewrite <- !app_assoc.
Qed.

End ChatCost.


Lemma chat_turn_makes_four_calls_witness :
  length (RAG.trace
            (RAG.chat_with_career_advisor Demo.flaky_service
               Demo.two_neighbours Demo.keyed_engine Demo.resume
               Demo.recent_turns (lit "What next?")
               (Demo.world_with 3%nat)).2)
  = 4%nat.
Proof.
  destruct (chat_turn_makes_four_calls Demo.flaky_service Demo.two_neighbours
              Demo.keyed_engine (lit "gsk_demo") job_database Demo.resume
              Demo.recent_turns (lit "What next?") (Demo.world_with 3%nat)
              (lit "Skills: python, django ") 2%nat _ _
              (lit "Skills: python, django ") 1%nat
              (lit "Skills: python, django ") 0%nat
              eq_refl eq_refl eq_refl eq_refl eq_refl eq_refl)
    as (w4 & Hrun & Htrace).
  rewrite Hrun. cbn [snd]. by rewrite Htrace.
Defined.
